(** * model_report.py: the tabular core of ModelReport and ADMReport

    A shallow embedding of the data reshaping done by [ModelReport] and
    [ADMReport] (python/model_report.py): shape checks, the success-rate
    column, the latest-snapshot views, query filtering, the calendar
    heatmap tables and the row selections handed to the plotting calls.

    Conventions.
    - A numpy input array is a [list]; [a.shape[0]] is [length a].
    - A pandas frame whose columns are fixed by the code is a list of
      records, in row order.  The frames handed to [_apply_query], whose
      columns are looked up by name at run time, are [DataFrame]s of cells.
    - A timestamp is an integer number of seconds; [i.date()] is the day
      number [t / 86400].
    - A float is an exact rational or one of the IEEE specials
      (see [float]); rounding is not modelled.
    - An exception is a value of [exn], carried by [Raise]. *)

From Stdlib Require Import Ascii ZArith QArith Lia.
From stdpp Require Import base option list gmap strings sorting.

Local Open Scope Z_scope.

(** ** Exceptions *)

Inductive exn : Type :=
| TypeError (msg : string)
| ValueError (msg : string)
| KeyError (key : string)
| IndexError (msg : string).

Inductive result (A : Type) : Type :=
| Ok (a : A)
| Raise (e : exn).

Arguments Ok {A} a.
Arguments Raise {A} e.

#[global] Instance result_ret : MRet result := fun _ a => Ok a.

#[global] Instance result_bind : MBind result := fun _ _ k m =>
  match m with
  | Ok a => k a
  | Raise e => Raise e
  end.

Fixpoint result_mapM {A B : Type} (f : A -> result B) (l : list A) : result (list B) :=
  match l with
  | [] => Ok []
  | a :: l' => b ← f a; bs ← result_mapM f l'; Ok (b :: bs)
  end.

Fixpoint result_foldM {A B : Type} (f : B -> A -> result B) (l : list A) (b : B) : result B :=
  match l with
  | [] => Ok b
  | a :: l' => b' ← f b a; result_foldM f l' b'
  end.

(** ** Floats *)

(** A float64 value: a finite value, kept exact, or a special. *)
Inductive float : Type :=
| Fin (q : Q)
| PInf
| NInf
| NaN.

(** [x * 100.0] for an integer [x]. *)
Definition mul100 (x : Z) : float := Fin (inject_Z x * 100)%Q.

(** [x / d] for a float [x] and an integer [d], as numpy divides: a zero
    divisor gives an infinity or NaN, never an exception. *)
Definition truediv (x : float) (d : Z) : float :=
  match x with
  | Fin q =>
      if d =? 0 then
        match Qcompare q 0 with
        | Gt => PInf
        | Lt => NInf
        | Eq => NaN
        end
      else Fin (q / inject_Z d)%Q
  | PInf => if d <? 0 then NInf else PInf
  | NInf => if d <? 0 then PInf else NInf
  | NaN => NaN
  end.

Definition float_eqb (x y : float) : bool :=
  match x, y with
  | Fin p, Fin q => Qeq_bool p q
  | PInf, PInf | NInf, NInf | NaN, NaN => true
  | _, _ => false
  end.

(** ** Masks and [.loc] assignment *)

(** [df[mask]]: the rows whose mask entry is true. *)
Fixpoint boolean_index {A : Type} (mask : list bool) (l : list A) : list A :=
  match mask, l with
  | b :: mask', a :: l' =>
      if b then a :: boolean_index mask' l' else boolean_index mask' l'
  | _, _ => []
  end.

(** [df.loc[mask, label] = vals]: where the mask holds the row takes the
    value of [vals] at the same position, elsewhere it is left alone. *)
Fixpoint loc_assign {R V : Type} (set : R -> V -> R)
    (mask : list bool) (vals : list V) (df : list R) : list R :=
  match mask, vals, df with
  | b :: mask', v :: vals', r :: df' =>
      (if b then set r v else r) :: loc_assign set mask' vals' df'
  | _, _, _ => []
  end.

(** ** Input arrays and records *)

(** One row of [dfModel] before the success rate is added; the fields
    are the columns [cols] of the class. *)
Record ModelSnapshot : Type := {
  modelID : string;
  modelName : string;
  positives : Z;
  responses : Z;
  performance : Q;
  snapshot : Z
}.

(** The six arrays passed to [ModelReport.__init__]. *)
Record ModelArrays : Type := {
  a_modelID : list string;
  a_modelName : list string;
  a_positives : list Z;
  a_responses : list Z;
  a_modelAUC : list Q;
  a_modelSnapshot : list Z
}.

(** One row of the predictor frame; the fields are [predCols]. *)
Record PredictorBin : Type := {
  predModelID : string;
  predName : string;
  predPerformance : Q;
  binSymbol : string;
  binIndex : Z;
  entryType : string;
  predictorType : string;
  binPositives : Z;
  binResponses : Z;
  predSnapshot : Z
}.

(** The ten predictor arrays passed to [ADMReport.__init__]. *)
Record PredictorArrays : Type := {
  a_predModelID : list string;
  a_predName : list string;
  a_predPerformance : list Q;
  a_binSymbol : list string;
  a_binIndex : list Z;
  a_entryType : list string;
  a_predictorType : list string;
  a_predSnapshot : list Z;
  a_binPositives : list Z;
  a_binResponses : list Z
}.

(** A frame row with the rate column added by [_calculate_success_rate]. *)
Definition Rated (R : Type) : Type := (R * float)%type.

Definition set_rate {R : Type} (r : Rated R) (v : float) : Rated R := (r.1, v).

(** ** Shape checks *)

Definition shape_error : exn :=
  TypeError "All input data must have the same number of rows".

(** [_check_data_shape]: the chained comparison [a == b == ... == f] is
    the conjunction of the comparisons of neighbours. *)
Definition _check_data_shape (self : ModelArrays) : result unit :=
  if negb (Nat.eqb (length (a_modelID self)) (length (a_modelName self))
           && Nat.eqb (length (a_modelName self)) (length (a_positives self))
           && Nat.eqb (length (a_positives self)) (length (a_responses self))
           && Nat.eqb (length (a_responses self)) (length (a_modelAUC self))
           && Nat.eqb (length (a_modelAUC self)) (length (a_modelSnapshot self)))
  then Raise shape_error
  else Ok tt.

(** [_check_pred_data_shape], in the order the source compares. *)
Definition _check_pred_data_shape (self : PredictorArrays) : result unit :=
  if negb (Nat.eqb (length (a_predModelID self)) (length (a_predName self))
           && Nat.eqb (length (a_predName self)) (length (a_predPerformance self))
           && Nat.eqb (length (a_predPerformance self)) (length (a_binSymbol self))
           && Nat.eqb (length (a_binSymbol self)) (length (a_binIndex self))
           && Nat.eqb (length (a_binIndex self)) (length (a_entryType self))
           && Nat.eqb (length (a_entryType self)) (length (a_predictorType self))
           && Nat.eqb (length (a_predictorType self)) (length (a_predSnapshot self))
           && Nat.eqb (length (a_predSnapshot self)) (length (a_binPositives self))
           && Nat.eqb (length (a_binPositives self)) (length (a_binResponses self)))
  then Raise shape_error
  else Ok tt.

(** ** Success rate *)

(** [_calculate_success_rate(df, pos, total, label)]: [pos] and [total]
    read the two count columns, the result carries the new column [label].
    The three statements of the source, in order: the column is created
    as 0; the quotient is computed for every row and stored where
    [total > 0]; 0 is stored where [total <= 0]. *)
Definition _calculate_success_rate {R : Type} (pos total : R -> Z)
    (df : list R) : list (Rated R) :=
  let df0 := map (fun r => (r, Fin 0)) df in
  let quotient := map (fun r => truediv (mul100 (pos r.1)) (total r.1)) df0 in
  let df1 := loc_assign set_rate (map (fun r => 0 <? total r.1) df0) quotient df0 in
  let df2 := loc_assign set_rate (map (fun r => total r.1 <=? 0) df1)
                        (map (fun _ => Fin 0) df1) df1 in
  df2.

(** ** Cells, frames with named columns, and Python query objects *)

Inductive Cell : Type :=
| CStr (s : string)
| CInt (z : Z)
| CFloat (f : float)
| CTime (t : Z).

Definition cell_eqb (x y : Cell) : bool :=
  match x, y with
  | CStr s, CStr t => String.eqb s t
  | CInt a, CInt b => a =? b
  | CFloat f, CFloat g => float_eqb f g
  | CTime a, CTime b => a =? b
  | _, _ => false
  end.

Record DataFrame : Type := {
  df_columns : list string;
  df_rows : list (list Cell)
}.

(** The value stored under a key of the query: a list, or anything else. *)
Inductive PyValue : Type :=
| PyList (vals : list Cell)
| PyNotList.

(** The [query] argument: a dict, or any other object. *)
Inductive PyQuery : Type :=
| PyDict (d : gmap string PyValue)
| PyNotDict.

(** [query != {}]: a dict differs from [{}] when it has an item; an
    object of another type always differs. *)
Definition query_nonempty (query : PyQuery) : bool :=
  match query with
  | PyDict d => negb (bool_decide (map_to_list d = []))
  | PyNotDict => true
  end.

Definition is_list (v : PyValue) : bool :=
  match v with
  | PyList _ => true
  | PyNotList => false
  end.

(** [df.drop(label, axis=1)]. *)
Definition drop_column (label : string) (df : DataFrame) : result DataFrame :=
  if bool_decide (label ∈ df_columns df) then
    let keep := map (fun c => negb (String.eqb c label)) (df_columns df) in
    Ok {| df_columns := boolean_index keep (df_columns df);
          df_rows := map (boolean_index keep) (df_rows df) |}
  else Raise (KeyError label).

(** Position of the column named [col]. *)
Fixpoint column_position (col : string) (columns : list string) : option nat :=
  match columns with
  | [] => None
  | c :: columns' =>
      if String.eqb c col then Some O
      else S <$> column_position col columns'
  end.

(** [df[df[col].isin(val)]]. *)
Definition isin_filter (col : string) (val : list Cell) (df : DataFrame) : result DataFrame :=
  match column_position col (df_columns df) with
  | None => Raise (KeyError col)
  | Some i =>
      Ok {| df_columns := df_columns df;
            df_rows := List.filter
                         (fun row => match row !! i with
                                     | Some c => existsb (cell_eqb c) val
                                     | None => false
                                     end)
                         (df_rows df) |}
  end.

(** [df[[c1, ..., cn]]]. *)
Definition select_columns (labels : list string) (df : DataFrame) : result DataFrame :=
  positions ← result_mapM (fun c => match column_position c (df_columns df) with
                                    | Some i => Ok i
                                    | None => Raise (KeyError c)
                                    end) labels;
  Ok {| df_columns := labels;
        df_rows := map (fun row => omap (fun i => row !! i) positions) (df_rows df) |}.

(** [_apply_query(query, df)]. *)
Definition _apply_query (query : PyQuery) (df : DataFrame) : result DataFrame :=
  _df ← drop_column "model ID" df;
  if query_nonempty query then
    match query with
    | PyNotDict => Raise (TypeError "query must be a dict where values are lists")
    | PyDict d =>
        if forallb (fun kv => is_list kv.2) (map_to_list d) then
          result_foldM
            (fun _df kv =>
               match kv.2 with
               | PyList val => isin_filter kv.1 val _df
               | PyNotList =>
                   Raise (TypeError "only list-like objects are allowed to be passed to isin()")
               end)
            (map_to_list d) _df
        else Raise (ValueError "query values must be list")
    end
  else Ok _df.

(** ** Grouping *)

(** [df.groupby(key).tail(1)]: the rows that are the last of their
    group, in the order of the frame. *)
Fixpoint groupby_tail1 {R K : Type} `{EqDecision K} (key : R -> K) (df : list R) : list R :=
  match df with
  | [] => []
  | r :: df' =>
      if bool_decide (key r ∈ map key df') then groupby_tail1 key df'
      else r :: groupby_tail1 key df'
  end.

(** The entry of [df.groupby(key)[val].transform(max)] at row [r]: the
    largest [val] among the rows of the group of [r]. *)
Definition group_max {R K : Type} `{EqDecision K} (key : R -> K) (val : R -> Z)
    (df : list R) (r : R) : Z :=
  foldr Z.max (val r)
        (map val (List.filter (fun r' => bool_decide (key r' = key r)) df)).

(** [df[df.groupby(key)[val].transform(max) == df[val]]]. *)
Definition keep_group_max {R K : Type} `{EqDecision K} (key : R -> K) (val : R -> Z)
    (df : list R) : list R :=
  boolean_index (map (fun r => group_max key val df r =? val r) df) df.

(** [Series.unique()]: the distinct values in order of first appearance. *)
Fixpoint unique {A : Type} `{EqDecision A} (l : list A) : list A :=
  match l with
  | [] => []
  | x :: l' => x :: List.filter (fun y => negb (bool_decide (y = x))) (unique l')
  end.

(** Sorted distinct values, as the axes of a pivot table and the keys of
    a [groupby] are. *)
Fixpoint insert_sorted {A : Type} (le : A -> A -> bool) (x : A) (l : list A) : list A :=
  match l with
  | [] => [x]
  | y :: l' => if le x y then x :: l else y :: insert_sorted le x l'
  end.

Definition sort_unique {A : Type} `{EqDecision A} (le : A -> A -> bool) (l : list A) : list A :=
  foldr (insert_sorted le) [] (unique l).

(** ** Tables with a row index and date columns *)

(** A pivoted frame: one row per model name, one column per day; a
    missing value (NaN) is [None]. *)
Record Table : Type := {
  t_index : list string;
  t_columns : list Z;
  t_values : list (list (option Z))
}.

(** What [generate_heatmap_df] returns: the bare empty frame
    [pd.DataFrame()] of the no-data branch, or the tuple
    [(df_annot, df_sign)]. *)
Inductive HeatmapResult : Type :=
| EmptyFrame
| Tables (df_annot df_sign : Table).

(** A row of the three columns the heatmap reads. *)
Record HeatRow : Type := {
  h_name : string;
  h_snapshot : Z;
  h_responses : Z
}.

(** [i.date()] of a timestamp in seconds. *)
Definition date (t : Z) : Z := t / 86400.

Definition h_date (r : HeatRow) : Z := date (h_snapshot r).

(** A row of [df[['model name', 'model snapshot', 'responses']]], typed:
    a name, a timestamp and a count, as every row selected from the
    frame of [dfModel] is. *)
Definition heat_row (row : list Cell) : result HeatRow :=
  match row with
  | [CStr n; CTime t; CInt r] =>
      Ok {| h_name := n; h_snapshot := t; h_responses := r |}
  | _ => Raise (TypeError "unexpected column type")
  end.

(** [Series.max()] and [Series.min()] of a column of days; [None] is the
    NaN of an empty column. *)
Definition series_max (l : list Z) : option Z :=
  match l with
  | [] => None
  | x :: l' => Some (foldr Z.max x l')
  end.

Definition series_min (l : list Z) : option Z :=
  match l with
  | [] => None
  | x :: l' => Some (foldr Z.min x l')
  end.

(** [pd.date_range(lo, hi)]: every day from [lo] to [hi]. *)
Definition date_range (lo hi : Z) : list Z := seqZ lo (hi - lo + 1).

Definition duplicate_error : exn :=
  ValueError "Index contains duplicate entries, cannot reshape".

(** A cell of the long frame that is pivoted: (model name, day, responses). *)
Definition LongRow : Type := (string * Z * option Z)%type.

Definition long_key (c : LongRow) : string * Z := (c.1.1, c.1.2).

(** The value of the long frame at (name, day); NaN when there is none. *)
Definition long_lookup (df : list LongRow) (n : string) (d : Z) : option Z :=
  match List.filter (fun c => bool_decide (long_key c = (n, d))) df with
  | c :: _ => c.2
  | [] => None
  end.

(** [df.pivot(columns='Date', values='responses', index='model name')]. *)
Definition pivot (df : list LongRow) : result Table :=
  if bool_decide (NoDup (map long_key df)) then
    let index := sort_unique String.leb (map (fun c => c.1.1) df) in
    let columns := sort_unique Z.leb (map (fun c => c.1.2) df) in
    Ok {| t_index := index;
          t_columns := columns;
          t_values := map (fun n => map (fun d => long_lookup df n d) columns) index |}
  else Raise duplicate_error.

(** The [fill_null_days] step: each model's rows are reindexed on every
    day from the first to the last day present. *)
Definition reindex_days (df : list HeatRow) : result (list LongRow) :=
  match series_min (map h_date df), series_max (map h_date df) with
  | Some lo, Some hi =>
      let idx_date := date_range lo hi in
      groups ← result_mapM
        (fun n =>
           let d := List.filter (fun r => String.eqb (h_name r) n) df in
           if bool_decide (NoDup (map h_date d)) then
             Ok (map (fun day =>
                        (n, day,
                         h_responses <$> head (List.filter (fun r => h_date r =? day) d)))
                     idx_date)
           else Raise (ValueError "cannot reindex on an axis with duplicate labels"))
        (sort_unique String.leb (map h_name df));
      Ok (concat groups)
  | _, _ => Ok []
  end.

(** *** The sign table *)

Definition mask_value (cond : Z -> bool) (other : Z) (v : option Z) : option Z :=
  match v with
  | Some x => if cond x then Some other else Some x
  | None => None
  end.

(** [df.mask(cond, other)] on every cell; a NaN satisfies no comparison. *)
Definition mask (cond : Z -> bool) (other : Z) (t : Table) : Table :=
  {| t_index := t_index t;
     t_columns := t_columns t;
     t_values := map (map (mask_value cond other)) (t_values t) |}.

(** Position of the column labelled [d]. *)
Fixpoint day_position (d : Z) (columns : list Z) : option nat :=
  match columns with
  | [] => None
  | c :: columns' => if c =? d then Some O else S <$> day_position d columns'
  end.

(** [df[label] = v]: an existing column is overwritten, a new one is
    appended on the right. *)
Definition assign_column (label : Z) (v : Z) (t : Table) : Table :=
  match day_position label (t_columns t) with
  | Some i =>
      {| t_index := t_index t;
         t_columns := t_columns t;
         t_values := map (fun row => <[i := Some v]> row) (t_values t) |}
  | None =>
      {| t_index := t_index t;
         t_columns := t_columns t ++ [label];
         t_values := map (fun row => row ++ [Some v]) (t_values t) |}
  end.

(** [df[cols]] for a list of labels. *)
Definition select_days (cols : list Z) (t : Table) : result Table :=
  positions ← result_mapM (fun c => match day_position c (t_columns t) with
                                    | Some i => Ok i
                                    | None => Raise (KeyError "Date")
                                    end) cols;
  Ok {| t_index := t_index t;
        t_columns := cols;
        t_values := map (fun row => omap (fun i => row !! i) positions) (t_values t) |}.

(** [df.fillna(v)]. *)
Definition fillna (v : Z) (t : Table) : Table :=
  {| t_index := t_index t;
     t_columns := t_columns t;
     t_values := map (map (fun x => Some (default v x))) (t_values t) |}.

(** Elementwise difference of two slices of a row; NaN propagates. *)
Definition subtract (xs ys : list (option Z)) : list (option Z) :=
  zip_with (fun x y => match x, y with
                       | Some a, Some b => Some (a - b)
                       | _, _ => None
                       end) xs ys.

(** [row[:-1]]. *)
Definition but_last {A : Type} (l : list A) : list A := take (length l - 1)%nat l.

(** [_create_sign_df(df)].  Row [i] of [vals = df.reset_index().values]
    is the model name [vals[i,0]] followed by the values [vals[i,1:]] of
    the row, so [vals[i,2:]] is the row without its first value and
    [vals[i,1:-1]] the row without its last.  The stacked array has the
    name column and the difference columns; giving it the labels [cols]
    needs as many columns as labels.  The first label is then renamed to
    ['model name'] and that column becomes the index, which leaves the
    differences under the labels [cols[1:]]. *)
Definition _create_sign_df (df : Table) : result Table :=
  let cols := t_columns df in
  let diffs := map (fun row => subtract (drop 1 row) (but_last row)) (t_values df) in
  if forallb (fun d => Nat.eqb (1 + length d) (length cols)) diffs then
    let _df := {| t_index := t_index df;
                  t_columns := drop 1 cols;
                  t_values := diffs |} in
    let df_sign := mask (fun x => 0 <? x) 1 _df in
    let df_sign := mask (fun x => x <? 0) (-1) df_sign in
    match cols with
    | [] => Raise (IndexError "index 0 is out of bounds")
    | c0 :: _ =>
        let df_sign := assign_column c0 1 df_sign in
        selected ← select_days cols df_sign;
        Ok (fillna 1 selected)
    end
  else Raise (ValueError "Length mismatch").

(** ** ModelReport *)

(** [pd.DataFrame.from_dict(dict(zip(self.cols, [...])))]: row [n] holds
    the [n]-th item of each array. *)
Fixpoint model_frame (ids names : list string) (pos resp : list Z)
    (auc : list Q) (snap : list Z) : list ModelSnapshot :=
  match ids, names, pos, resp, auc, snap with
  | i :: ids', n :: names', p :: pos', r :: resp', a :: auc', s :: snap' =>
      {| modelID := i; modelName := n; positives := p; responses := r;
         performance := a; snapshot := s |}
      :: model_frame ids' names' pos' resp' auc' snap'
  | _, _, _, _, _, _ => []
  end.

(** [_set_proper_type]: the name column is already text and the snapshot
    column already a timestamp in this embedding. *)
Definition _set_proper_type (df : list (Rated ModelSnapshot)) : list (Rated ModelSnapshot) := df.

Record ModelReport : Type := {
  self_arrays : ModelArrays;
  dfModel : list (Rated ModelSnapshot);
  latestModels : list (Rated ModelSnapshot)
}.

(** The columns of [dfModel] as named cells, in the order of
    [self.cols] followed by the success rate. *)
Definition model_cells (r : Rated ModelSnapshot) : list Cell :=
  [CStr (modelID r.1); CStr (modelName r.1); CInt (positives r.1);
   CInt (responses r.1); CFloat (Fin (performance r.1)); CTime (snapshot r.1);
   CFloat r.2].

Definition to_frame (df : list (Rated ModelSnapshot)) : DataFrame :=
  {| df_columns := ["model ID"; "model name"; "positives"; "responses";
                    "model performance"; "model snapshot"; "success rate (%)"];
     df_rows := map model_cells df |}.

Definition long_row (r : HeatRow) : LongRow := (h_name r, h_date r, Some (h_responses r)).

Section Sorted_frames.

(** [df.sort_values(by)] with the default [kind='quicksort']: pandas
    promises the rows back in ascending order of the key, and no more;
    the order it leaves equal keys in is the sorting routine's. The
    routine is a parameter of everything that sorts. *)
Variable sort_values : forall R : Type, (R -> Z) -> list R -> list R.

(** [_create_model_df]. *)
Definition _create_model_df (self : ModelArrays)
    : list (Rated ModelSnapshot) * list (Rated ModelSnapshot) :=
  let df_all := model_frame (a_modelID self) (a_modelName self) (a_positives self)
                            (a_responses self) (a_modelAUC self) (a_modelSnapshot self) in
  let df_all := _calculate_success_rate positives responses df_all in
  let df_all := _set_proper_type df_all in
  let df_latest :=
    groupby_tail1 (fun r => modelName r.1)
                  (sort_values _ (fun r => snapshot r.1) df_all) in
  (df_all, df_latest).

(** [ModelReport.__init__]. *)
Definition ModelReport_init (arrays : ModelArrays) : result ModelReport :=
  _ ← _check_data_shape arrays;
  let frames := _create_model_df arrays in
  Ok {| self_arrays := arrays; dfModel := frames.1; latestModels := frames.2 |}.

(** [generate_heatmap_df(lookback, query, fill_null_days)].  When the
    query leaves no row, [df['Date'].max()] is NaN and subtracting the
    [timedelta] from it raises. *)
Definition generate_heatmap_df (self : ModelReport) (lookback : Z)
    (query : PyQuery) (fill_null_days : bool) : result HeatmapResult :=
  df ← _apply_query query (to_frame (dfModel self));
  df ← select_columns ["model name"; "model snapshot"; "responses"] df;
  df ← result_mapM heat_row (df_rows df);
  let df := sort_values _ h_snapshot df in
  match series_max (map h_date df) with
  | None =>
      Raise (TypeError "unsupported operand type(s) for -: 'float' and 'datetime.timedelta'")
  | Some latest =>
      let df := List.filter (fun r => latest - lookback <? h_date r) df in
      if (length df <? 1)%nat then Ok EmptyFrame
      else
        let df := keep_group_max (fun r => (h_name r, h_date r)) h_snapshot df in
        long ← (if fill_null_days then reindex_days df else Ok (map long_row df));
        df_annot ← pivot long;
        df_sign ← _create_sign_df df_annot;
        Ok (Tables df_annot df_sign)
  end.

(** [show_calendar_heatmap] up to the drawing call: the two tables the
    caller unpacks from [generate_heatmap_df] and passes to
    [sns.heatmap].  Unpacking an empty frame into two names fails. *)
Definition show_calendar_heatmap (self : ModelReport) (lookback : Z)
    (fill_null_days : bool) (query : PyQuery) : result (Table * Table) :=
  r ← generate_heatmap_df self lookback query fill_null_days;
  match r with
  | Tables annot_df heatmap_df => Ok (annot_df, heatmap_df)
  | EmptyFrame => Raise (ValueError "not enough values to unpack (expected 2, got 0)")
  end.

End Sorted_frames.

(** ** ADMReport *)

(** The predictor columns of a row of [latestPredModel]; the predictor
    snapshot has been dropped and the bin propensity added. *)
Record PredictorPart : Type := {
  pp_predName : string;
  pp_predPerformance : Q;
  pp_binSymbol : string;
  pp_binIndex : Z;
  pp_entryType : string;
  pp_predictorType : string;
  pp_binPositives : Z;
  pp_binResponses : Z;
  pp_binPropensity : float
}.

(** A row of [latestPredModel]: the model columns without the model ID,
    and the predictor columns, which are all NaN ([None]) on a model row
    that no predictor row joined. *)
Record LatestPredRow : Type := {
  lp_modelName : string;
  lp_positives : Z;
  lp_responses : Z;
  lp_performance : Q;
  lp_snapshot : Z;
  lp_successRate : float;
  lp_predictor : option PredictorPart
}.

(** The predictor frame: row [n] holds the [n]-th item of each array. *)
Fixpoint predictor_frame (ids names : list string) (perf : list Q)
    (symbol : list string) (index : list Z) (entry type : list string)
    (pos resp snap : list Z) : list PredictorBin :=
  match ids, names, perf, symbol, index, entry, type, pos, resp, snap with
  | i :: ids', n :: names', pf :: perf', sy :: symbol', ix :: index',
    e :: entry', ty :: type', p :: pos', r :: resp', s :: snap' =>
      {| predModelID := i; predName := n; predPerformance := pf; binSymbol := sy;
         binIndex := ix; entryType := e; predictorType := ty; binPositives := p;
         binResponses := r; predSnapshot := s |}
      :: predictor_frame ids' names' perf' symbol' index' entry' type' pos' resp' snap'
  | _, _, _, _, _, _, _, _, _, _ => []
  end.

(** The rows of the right frame that have the model ID of a left row. *)
Definition joined (right : list (Rated PredictorBin)) (m : Rated ModelSnapshot)
    : list (Rated PredictorBin) :=
  List.filter (fun p => String.eqb (predModelID p.1) (modelID m.1)) right.

(** [left.merge(right, on='model ID', how='left')]: every row of the
    left frame, in order, once for each right row with its model ID, or
    once with the right columns missing when there is none. *)
Definition merge_left (left : list (Rated ModelSnapshot))
    (right : list (Rated PredictorBin))
    : list (Rated ModelSnapshot * option (Rated PredictorBin)) :=
  flat_map
    (fun m =>
       match joined right m with
       | [] => [(m, None)]
       | ps => map (fun p => (m, Some p)) ps
       end)
    left.

Definition predictor_part (p : Rated PredictorBin) : PredictorPart :=
  {| pp_predName := predName p.1; pp_predPerformance := predPerformance p.1;
     pp_binSymbol := binSymbol p.1; pp_binIndex := binIndex p.1;
     pp_entryType := entryType p.1; pp_predictorType := predictorType p.1;
     pp_binPositives := binPositives p.1; pp_binResponses := binResponses p.1;
     pp_binPropensity := p.2 |}.

(** [.drop(['model ID', 'predictor snapshot'], axis=1)] on a merged row. *)
Definition drop_keys (row : Rated ModelSnapshot * option (Rated PredictorBin))
    : LatestPredRow :=
  {| lp_modelName := modelName row.1.1; lp_positives := positives row.1.1;
     lp_responses := responses row.1.1; lp_performance := performance row.1.1;
     lp_snapshot := snapshot row.1.1; lp_successRate := row.1.2;
     lp_predictor := predictor_part <$> row.2 |}.

Definition pred_key (p : PredictorBin) : string * string := (predModelID p, predName p).

(** The frame built from the ten arrays, under the names [predCols]. *)
Definition predictor_input (preds : PredictorArrays) : list PredictorBin :=
  predictor_frame (a_predModelID preds) (a_predName preds)
                  (a_predPerformance preds) (a_binSymbol preds)
                  (a_binIndex preds) (a_entryType preds)
                  (a_predictorType preds) (a_binPositives preds)
                  (a_binResponses preds) (a_predSnapshot preds).

(** The predictor rows kept by [_df = _df[idx]], with the propensity. *)
Definition latest_predictors (preds : PredictorArrays) : list (Rated PredictorBin) :=
  let _df := predictor_input preds in
  let _df := keep_group_max pred_key predSnapshot _df in
  _calculate_success_rate binPositives binResponses _df.

(** [_create_pred_model_df]: the merge is onto [self.dfModel]. *)
Definition _create_pred_model_df (self : ModelReport) (preds : PredictorArrays)
    : list LatestPredRow :=
  map drop_keys (merge_left (dfModel self) (latest_predictors preds)).

Record ADMReport : Type := {
  adm_model : ModelReport;
  adm_arrays : PredictorArrays;
  latestPredModel : list LatestPredRow
}.

(** [ADMReport.__init__]. *)
Definition ADMReport_init (sort_values : forall R : Type, (R -> Z) -> list R -> list R)
    (arrays : ModelArrays) (preds : PredictorArrays) : result ADMReport :=
  base ← ModelReport_init sort_values arrays;
  _ ← _check_pred_data_shape preds;
  Ok {| adm_model := base; adm_arrays := preds;
        latestPredModel := _create_pred_model_df base preds |}.

(** The name in the ['predictor name'] column; [None] is NaN. *)
Definition lp_predName (r : LatestPredRow) : option string := pp_predName <$> lp_predictor r.

(** Truth value of an optional list argument: [None] and [[]] are false. *)
Definition truthy {A : Type} (arg : option (list A)) : bool :=
  match arg with
  | Some (_ :: _) => true
  | _ => false
  end.

Definition isin_names (arg : option (list string)) (s : string) : bool :=
  bool_decide (s ∈ default [] arg).

(** The frame [df] of [show_score_distribution] before the plotting loop. *)
Definition score_distribution_df (self : ADMReport) (models : option (list string))
    : list LatestPredRow :=
  let df := List.filter (fun r => bool_decide (lp_predName r = Some "Classifier"))
                        (latestPredModel self) in
  if truthy models then List.filter (fun r => isin_names models (lp_modelName r)) df
  else df.

(** [show_score_distribution]: the (frame, title) pairs handed, in order,
    to [distribution_graph]. *)
Definition show_score_distribution (self : ADMReport) (models : option (list string))
    : list (list LatestPredRow * string) :=
  let df := score_distribution_df self models in
  map (fun model =>
         (List.filter (fun r => String.eqb (lp_modelName r) model) df,
          "Model name: " +:+ model))
      (unique (map lp_modelName df)).

(** The frame [df] of [show_predictor_report] before the plotting loop;
    a NaN predictor name differs from ['Classifier'] and is in no list. *)
Definition predictor_report_df (self : ADMReport) (model_name : string)
    (predictors : option (list string)) : list LatestPredRow :=
  let df := List.filter
              (fun r => String.eqb (lp_modelName r) model_name
                        && negb (bool_decide (lp_predName r = Some "Classifier")))
              (latestPredModel self) in
  if truthy predictors then
    List.filter (fun r => match lp_predName r with
                          | Some n => isin_names predictors n
                          | None => false
                          end) df
  else df.

(** [show_predictor_report]: the (frame, title) pairs handed to
    [distribution_graph]; a NaN name cannot be appended to the title. *)
Definition show_predictor_report (self : ADMReport) (model_name : string)
    (predictors : option (list string)) : result (list (list LatestPredRow * string)) :=
  let df := predictor_report_df self model_name predictors in
  result_mapM
    (fun pred =>
       match pred with
       | Some name =>
           Ok (List.filter (fun r => bool_decide (lp_predName r = Some name)) df,
               "Model name: " +:+ model_name +:+ "
 Predictor name: " +:+ name)
       | None => Raise (TypeError "can only concatenate str (not float) to str")
       end)
    (unique (map lp_predName df)).

(** ** Two sorting routines *)

(** Both return a sorted permutation of the frame, which is all that
    [sort_values] promises.  [stable_sort] keeps rows with equal keys in
    the order they came in; [tie_reversing_sort] puts a row behind the
    rows of equal key that followed it. *)
Fixpoint insert_by {R : Type} (before : Z -> Z -> bool) (key : R -> Z)
    (x : R) (l : list R) : list R :=
  match l with
  | [] => [x]
  | y :: l' =>
      if before (key x) (key y) then x :: l
      else y :: insert_by before key x l'
  end.

Definition stable_sort (R : Type) (key : R -> Z) (l : list R) : list R :=
  foldr (insert_by Z.leb key) [] l.


(** ** Reference definitions used to state the properties *)

(** The success rate as the data model words it:
    positives * 100 / responses when responses > 0, else 0. *)
Definition success_rate_spec (pos total : Z) : float :=
  if 0 <? total then Fin (inject_Z pos * 100 / inject_Z total)%Q else Fin 0.

(** The six model arrays have one length. *)
Definition same_length (a : ModelArrays) : Prop :=
  length (a_modelName a) = length (a_modelID a)
  /\ length (a_positives a) = length (a_modelID a)
  /\ length (a_responses a) = length (a_modelID a)
  /\ length (a_modelAUC a) = length (a_modelID a)
  /\ length (a_modelSnapshot a) = length (a_modelID a).

(** The ten predictor arrays have one length. *)
Definition same_length_pred (a : PredictorArrays) : Prop :=
  length (a_predName a) = length (a_predModelID a)
  /\ length (a_predPerformance a) = length (a_predModelID a)
  /\ length (a_binSymbol a) = length (a_predModelID a)
  /\ length (a_binIndex a) = length (a_predModelID a)
  /\ length (a_entryType a) = length (a_predModelID a)
  /\ length (a_predictorType a) = length (a_predModelID a)
  /\ length (a_predSnapshot a) = length (a_predModelID a)
  /\ length (a_binPositives a) = length (a_predModelID a)
  /\ length (a_binResponses a) = length (a_predModelID a).

#[local] Instance same_length_dec (a : ModelArrays) : Decision (same_length a).
Proof. unfold same_length. apply _. Defined.

#[local] Instance same_length_pred_dec (a : PredictorArrays) : Decision (same_length_pred a).
Proof. unfold same_length_pred. apply _. Defined.

(** The cell of row [i] under the column named [col]. *)
Definition cell_at (df : DataFrame) (i : nat) (col : string) : option Cell :=
  row ← df_rows df !! i;
  j ← column_position col (df_columns df);
  row !! j.

(** The sign of a day-over-day change; a missing value on either day
    counts as +1. *)
Definition sign_of (previous current : option Z) : Z :=
  match previous, current with
  | Some a, Some b => Z.sgn (b - a)
  | _, _ => 1
  end.

(** Row [r] has the largest [val] of its group in [df]. *)
Definition latest_in_group {R K : Type} `{EqDecision K} (key : R -> K) (val : R -> Z)
    (df : list R) (r : R) : bool :=
  forallb (fun r' => implb (bool_decide (key r' = key r)) (val r' <=? val r)) df.

(** The row of the sign table for a row of the annotation table. *)
Definition sign_row (row : list (option Z)) : list (option Z) :=
  Some 1 :: zip_with (fun cur prev => Some (sign_of prev cur)) (drop 1 row) (but_last row).



(** The contract of [sort_values]. *)
Definition sorts (sort_values : forall R : Type, (R -> Z) -> list R -> list R) : Prop :=
  forall (R : Type) (key : R -> Z) (l : list R),
    sort_values R key l ≡ₚ l
    /\ Sorted (fun a b => key a <= key b) (sort_values R key l).


(** ** Example inputs *)

(** The arrays of the docstring of [ModelReport.__init__]; the snapshots
    are 2019-01-01, 2019-02-01 and 2019-03-01, in seconds. *)
Definition docstring_arrays : ModelArrays :=
  {| a_modelID := ["i1"; "i1"; "i3"];
     a_modelName := ["model1"; "model1"; "model3"];
     a_positives := [1; 2; 7];
     a_responses := [100; 110; 200];
     a_modelAUC := [0.6; 0.7; 0.73]%Q;
     a_modelSnapshot := [1546300800; 1548979200; 1551398400] |}.

(** One model with a single snapshot at noon of 2019-01-01. *)
Definition one_model_arrays : ModelArrays :=
  {| a_modelID := ["i1"];
     a_modelName := ["model1"];
     a_positives := [1];
     a_responses := [100];
     a_modelAUC := [0.6]%Q;
     a_modelSnapshot := [1546344000] |}.

(** Two bins of one predictor of that model, from one snapshot. *)
Definition two_bin_arrays : PredictorArrays :=
  {| a_predModelID := ["i1"; "i1"];
     a_predName := ["Age"; "Age"];
     a_predPerformance := [0.55; 0.55]%Q;
     a_binSymbol := ["<30"; ">=30"];
     a_binIndex := [1; 2];
     a_entryType := ["Active"; "Active"];
     a_predictorType := ["numeric"; "numeric"];
     a_predSnapshot := [1546344000; 1546344000];
     a_binPositives := [1; 2];
     a_binResponses := [10; 20] |}.

(** A predictor named Classifier whose entry type is Active, and a
    predictor named Age whose entry type is Classifier. *)
Definition mixed_entry_arrays : PredictorArrays :=
  {| a_predModelID := ["i1"; "i1"];
     a_predName := ["Classifier"; "Age"];
     a_predPerformance := [0.7; 0.55]%Q;
     a_binSymbol := ["<0.5"; "<30"];
     a_binIndex := [1; 1];
     a_entryType := ["Active"; "Classifier"];
     a_predictorType := ["numeric"; "numeric"];
     a_predSnapshot := [1546344000; 1546344000];
     a_binPositives := [1; 2];
     a_binResponses := [10; 20] |}.


(** Two models over three days (day 1, 2 and 3 after the epoch, at
    01:00): model A has 100, 90 and 90 responses, model B has 50 on the
    first day, no snapshot on the second and 60 on the third. *)
Definition heatmap_arrays : ModelArrays :=
  {| a_modelID := ["a"; "b"; "a"; "a"; "b"];
     a_modelName := ["A"; "B"; "A"; "A"; "B"];
     a_positives := [10; 5; 9; 9; 6];
     a_responses := [100; 50; 90; 90; 60];
     a_modelAUC := [0.6; 0.7; 0.6; 0.6; 0.7]%Q;
     a_modelSnapshot := [90000; 90000; 176400; 262800; 262800] |}.

(** The report [ModelReport(...)] builds from arrays of one length. *)
Definition report_of (sort_values : forall R : Type, (R -> Z) -> list R -> list R)
    (arrays : ModelArrays) : ModelReport :=
  {| self_arrays := arrays;
     dfModel := (_create_model_df sort_values arrays).1;
     latestModels := (_create_model_df sort_values arrays).2 |}.

(** ** Labels and legends of the predictor graphs *)

(** [distribution_graph]: what the text of a tick label is replaced by,
    [text[0:24] + '...' if len(text) > 25 else text]. *)
Definition tick_label (text : string) : string :=
  if (25 <? String.length text)%nat then String.substring 0 24 text +:+ "..." else text.

(** [s.split(sep)] for a separator of one character. *)
Fixpoint split (sep : Ascii.ascii) (s : string) : list string :=
  match s with
  | EmptyString => [EmptyString]
  | String c s' =>
      if Ascii.eqb c sep then EmptyString :: split sep s'
      else match split sep s' with
           | part :: parts => String c part :: parts
           | [] => [String c EmptyString]
           end
  end.

(** [show_predictor_performance_boxplot]: the legend entry of a
    predictor name, [i.split('.')[0] if len(i.split('.')) > 1 else 'Primary']. *)
Definition legend (i : string) : string :=
  if (1 <? length (split "."%char i))%nat then default "" (head (split "."%char i))
  else "Primary".

(** ** The time series graphs *)

(** A row of [_apply_query(query, self.dfModel)], typed: the columns of
    [dfModel] without the model ID. *)
Record QueriedRow : Type := {
  q_name : string;
  q_positives : Z;
  q_responses : Z;
  q_performance : Q;
  q_snapshot : Z;
  q_rate : float
}.

Definition queried_row (row : list Cell) : result QueriedRow :=
  match row with
  | [CStr n; CInt p; CInt r; CFloat (Fin a); CTime t; CFloat rate] =>
      Ok {| q_name := n; q_positives := p; q_responses := r; q_performance := a;
            q_snapshot := t; q_rate := rate |}
  | _ => Raise (TypeError "unexpected column type")
  end.

(** One line of [show_response_auc_time]: the model name, its rows in
    the order they are plotted, and whether the name is written at the
    end of the line ([_df['responses'].max() > 1]). *)
Record TimeLine : Type := {
  line_name : string;
  line_points : list QueriedRow;
  line_labelled : bool
}.

(** [show_response_auc_time] up to the drawing calls: [None] when the
    queried rows have fewer than two distinct snapshot times (the branch
    is a bare string expression: nothing is drawn and nothing is
    printed), otherwise one line per model name. *)
Definition show_response_auc_time
    (sort_values : forall R : Type, (R -> Z) -> list R -> list R)
    (self : ModelReport) (query : PyQuery) : result (option (list TimeLine)) :=
  _df_g ← _apply_query query (to_frame (dfModel self));
  _df_g ← result_mapM queried_row (df_rows _df_g);
  if (length (unique (map q_snapshot _df_g)) <? 2)%nat then Ok None
  else
    Ok (Some (map (fun name =>
                     let _df := sort_values _ q_snapshot
                                  (List.filter (fun r => String.eqb (q_name r) name) _df_g) in
                     {| line_name := name;
                        line_points := _df;
                        line_labelled :=
                          match series_max (map q_responses _df) with
                          | Some m => 1 <? m
                          | None => false
                          end |})
                  (unique (map q_name _df_g)))).

(** [show_success_rate_time] up to the drawing calls: [None] as above,
    otherwise the frame handed to [sns.lineplot], which is [self.dfModel]. *)
Definition show_success_rate_time (self : ModelReport) (query : PyQuery)
    : result (option (list (Rated ModelSnapshot))) :=
  _df_g ← _apply_query query (to_frame (dfModel self));
  _df_g ← result_mapM queried_row (df_rows _df_g);
  if (length (unique (map q_snapshot _df_g)) <? 2)%nat then Ok None
  else Ok (Some (dfModel self)).

(** The columns of a row of [dfModel] other than the model ID. *)
Definition to_queried (r : Rated ModelSnapshot) : QueriedRow :=
  {| q_name := modelName r.1; q_positives := positives r.1; q_responses := responses r.1;
     q_performance := performance r.1; q_snapshot := snapshot r.1; q_rate := r.2 |}.

(** ** Reference definitions for the properties of the queries *)

(** The frame [df.drop('model ID', axis=1)] of a frame that has the column. *)
Definition without_model_ID (df : DataFrame) : DataFrame :=
  {| df_columns := List.filter (fun c => negb (String.eqb c "model ID")) (df_columns df);
     df_rows := map (boolean_index (map (fun c => negb (String.eqb c "model ID"))
                                        (df_columns df)))
                    (df_rows df) |}.

(** The cell of [row] under the column [col] is one of [val]. *)
Definition cell_in (columns : list string) (row : list Cell) (col : string)
    (val : list Cell) : bool :=
  match column_position col columns with
  | Some i =>
      match row !! i with
      | Some c => existsb (cell_eqb c) val
      | None => false
      end
  | None => false
  end.

(** [row] meets every item of a query. *)
Definition passes (columns : list string) (items : list (string * PyValue))
    (row : list Cell) : bool :=
  forallb (fun kv => match kv.2 with
                     | PyList val => cell_in columns row kv.1 val
                     | PyNotList => false
                     end) items.


(** Whether the character [c] occurs in [s]. *)
Fixpoint occurs (c : Ascii.ascii) (s : string) : bool :=
  match s with
  | EmptyString => false
  | String c' s' => Ascii.eqb c' c || occurs c s'
  end.

(** ** Properties of the helpers *)

Lemma loc_assign_map {R V : Type} (set : R -> V -> R) (c : R -> bool) (f : R -> V)
    (df : list R) :
  loc_assign set (map c df) (map f df) df
  = map (fun r => if c r then set r (f r) else r) df.
Proof.
  induction df as [|r df IH]; simpl; [reflexivity|]. by rewrite IH.
Qed.

Lemma calculate_success_rate_eq {R : Type} (pos total : R -> Z) (df : list R) :
  _calculate_success_rate pos total df
  = map (fun r => (r, success_rate_spec (pos r) (total r))) df.
Proof.
  unfold _calculate_success_rate.
  rewrite (loc_assign_map set_rate (fun r : Rated R => 0 <? total r.1)
             (fun r => truediv (mul100 (pos r.1)) (total r.1))).
  rewrite (loc_assign_map set_rate (fun r : Rated R => total r.1 <=? 0) (fun _ => Fin 0)).
  rewrite !map_map. apply map_ext. intros r. simpl.
  unfold success_rate_spec, set_rate, truediv, mul100. simpl.
  destruct (0 <? total r) eqn:Hpos; simpl.
  - assert ((total r =? 0) = false) as -> by lia.
    assert ((total r <=? 0) = false) as -> by lia. reflexivity.
  - assert ((total r <=? 0) = true) as -> by lia. reflexivity.
Qed.

Lemma check_data_shape_ok (a : ModelArrays) :
  same_length a -> _check_data_shape a = Ok tt.
Proof.
  intros (H1 & H2 & H3 & H4 & H5). unfold _check_data_shape.
  rewrite H1, H2, H3, H4, H5, !Nat.eqb_refl. reflexivity.
Qed.

Lemma check_data_shape_raise (a : ModelArrays) :
  ~ same_length a -> _check_data_shape a = Raise shape_error.
Proof.
  intros Hne. unfold _check_data_shape.
  destruct (_ && _) eqn:Hall; [|reflexivity].
  exfalso. apply Hne.
  repeat (apply andb_prop in Hall as [Hall ?%Nat.eqb_eq]).
  apply Nat.eqb_eq in Hall. unfold same_length. lia.
Qed.

Lemma check_pred_data_shape_ok (a : PredictorArrays) :
  same_length_pred a -> _check_pred_data_shape a = Ok tt.
Proof.
  intros (H1 & H2 & H3 & H4 & H5 & H6 & H7 & H8 & H9). unfold _check_pred_data_shape.
  rewrite H1, H2, H3, H4, H5, H6, H7, H8, H9, !Nat.eqb_refl. reflexivity.
Qed.

Lemma check_pred_data_shape_raise (a : PredictorArrays) :
  ~ same_length_pred a -> _check_pred_data_shape a = Raise shape_error.
Proof.
  intros Hne. unfold _check_pred_data_shape.
  destruct (_ && _) eqn:Hall; [|reflexivity].
  exfalso. apply Hne.
  repeat (apply andb_prop in Hall as [Hall ?%Nat.eqb_eq]).
  apply Nat.eqb_eq in Hall. unfold same_length_pred. lia.
Qed.


Lemma latest_predictors_rates preds :
  Forall (fun p => p.2 = success_rate_spec (binPositives p.1) (binResponses p.1))
         (latest_predictors preds).
Proof.
  unfold latest_predictors.
  rewrite calculate_success_rate_eq, List.Forall_map.
  apply Forall_forall. intros x _. reflexivity.
Qed.

(** ** C6 *)


(** ** C7 *)

(** C7. [ModelReport.__init__] raises the shape error exactly when the
    six arrays do not all have one length, and returns a report whenever
    they do; the error carries no frame.  [ADMReport.__init__] raises it
    exactly when the six model arrays or the ten predictor arrays do not
    all have one length: each group is compared within itself only, so
    the two groups may differ in length. *)
Theorem shape_check_iff :
  forall (sort_values : forall R : Type, (R -> Z) -> list R -> list R)
         (arrays : ModelArrays) (preds : PredictorArrays),
    (ModelReport_init sort_values arrays = Raise shape_error <-> ~ same_length arrays)
    /\ (same_length arrays <-> exists report, ModelReport_init sort_values arrays = Ok report)
    /\ (ADMReport_init sort_values arrays preds = Raise shape_error
        <-> ~ same_length arrays \/ ~ same_length_pred preds)
    /\ (same_length arrays /\ same_length_pred preds
        <-> exists report, ADMReport_init sort_values arrays preds = Ok report).
Proof.
  intros sort_values arrays preds.
  unfold ADMReport_init, ModelReport_init.
  destruct (decide (same_length arrays)) as [Hm|Hm];
    [rewrite (check_data_shape_ok _ Hm)|rewrite (check_data_shape_raise _ Hm)];
    (destruct (decide (same_length_pred preds)) as [Hp|Hp];
     [rewrite (check_pred_data_shape_ok _ Hp)|rewrite (check_pred_data_shape_raise _ Hp)]);
    simpl;
    repeat match goal with
           | |- _ /\ _ => split
           | |- _ <-> _ => split
           end;
    intros; try discriminate; try tauto; eauto;
    repeat match goal with
           | H : exists _, _ |- _ => destruct H
           end; discriminate.
Qed.

(** ** C9 *)

Lemma boolean_index_filter {A : Type} (f : A -> bool) (l : list A) :
  boolean_index (map f l) l = List.filter f l.
Proof.
  induction l as [|a l IH]; simpl; [reflexivity|]. rewrite IH. reflexivity.
Qed.

Lemma lookup_after_drop (label col : string) (cols : list string) (row : list Cell) :
  col <> label ->
  let keep := map (fun c => negb (String.eqb c label)) cols in
  (column_position col (boolean_index keep cols) ≫= fun j => boolean_index keep row !! j)
  = (column_position col cols ≫= fun j => row !! j).
Proof.
  intros Hne. simpl. revert row.
  induction cols as [|c cols IH]; intros row; [reflexivity|].
  destruct row as [|x row].
  { simpl. destruct (negb _); simpl;
      destruct (String.eqb c col); simpl;
      repeat match goal with
             | |- context [column_position ?a ?b] => destruct (column_position a b); simpl
             end; reflexivity. }
  simpl. destruct (String.eqb c label) eqn:Hc; simpl.
  - apply String.eqb_eq in Hc. subst c.
    assert (String.eqb label col = false) as -> by (apply String.eqb_neq; congruence).
    rewrite IH. destruct (column_position col cols); reflexivity.
  - destruct (String.eqb c col); simpl; [reflexivity|].
    specialize (IH row).
    destruct (column_position col (boolean_index _ cols)),
             (column_position col cols); simpl in *; assumption.
Qed.

(** C9. For every frame that has a ['model ID'] column, [_apply_query]
    with the empty dict returns the frame without that column: the other
    column names in their order, the same number of rows, and under every
    other column the same cell in every row. *)
Theorem apply_query_empty (df : DataFrame) :
  "model ID" ∈ df_columns df ->
  exists out,
    _apply_query (PyDict ∅) df = Ok out
    /\ df_columns out
       = List.filter (fun c => negb (String.eqb c "model ID")) (df_columns df)
    /\ length (df_rows out) = length (df_rows df)
    /\ forall (i : nat) (col : string),
         col <> "model ID" -> cell_at out i col = cell_at df i col.
Proof.
  intros Hin. unfold _apply_query, drop_column.
  rewrite bool_decide_eq_true_2 by assumption. simpl.
  rewrite map_to_list_empty. simpl.
  eexists. split; [reflexivity|]. simpl. split; [apply boolean_index_filter|].
  split; [apply length_map|].
  intros i col Hne. unfold cell_at. simpl.
  rewrite list_lookup_fmap.
  destruct (df_rows df !! i) as [row|]; simpl; [|reflexivity].
  apply (lookup_after_drop "model ID" col (df_columns df) row Hne).
Qed.

(** The frame of [dfModel] has the column, so the property applies to it. *)
Lemma apply_query_empty_witness :
  exists out,
    _apply_query (PyDict ∅)
      (to_frame [({| modelID := "i1"; modelName := "model1"; positives := 1;
                     responses := 100; performance := 0.6; snapshot := 0 |}, Fin 1)])
    = Ok out
    /\ df_columns out = ["model name"; "positives"; "responses"; "model performance";
                         "model snapshot"; "success rate (%)"]
    /\ length (df_rows out) = 1%nat.
Proof.
  destruct (apply_query_empty
              (to_frame [({| modelID := "i1"; modelName := "model1"; positives := 1;
                             responses := 100; performance := 0.6; snapshot := 0 |}, Fin 1)]))
    as (out & Hout & Hcols & Hlen & _).
  - simpl. set_solver.
  - exists out. split; [exact Hout|]. split; [exact Hcols|exact Hlen].
Defined.

(** ** Latest rows of a group *)

Lemma foldr_max_le (x : Z) (l : list Z) : x <= foldr Z.max x l.
Proof. induction l as [|y l IH]; simpl; lia. Qed.

Lemma foldr_max_eq (x : Z) (l : list Z) :
  foldr Z.max x l = x <-> Forall (fun y => y <= x) l.
Proof.
  induction l as [|y l IH]; simpl.
  - split; [constructor|reflexivity].
  - pose proof (foldr_max_le x l). split.
    + intros Hmax. constructor; [lia|]. apply IH. lia.
    + intros Hall. inversion Hall; subst. apply IH in H3. lia.
Qed.

Lemma group_max_eqb {R K : Type} `{EqDecision K} (key : R -> K) (val : R -> Z)
    (df : list R) (r : R) :
  (group_max key val df r =? val r) = latest_in_group key val df r.
Proof.
  unfold group_max, latest_in_group.
  apply eq_true_iff_eq. rewrite Z.eqb_eq, foldr_max_eq, forallb_forall.
  rewrite List.Forall_map, List.Forall_forall.
  setoid_rewrite filter_In. setoid_rewrite bool_decide_eq_true.
  split.
  - intros Hall r' Hin. destruct (bool_decide (key r' = key r)) eqn:Hk; simpl; [|reflexivity].
    apply bool_decide_eq_true in Hk. apply Z.leb_le. auto.
  - intros Hall r' [Hin Hk]. specialize (Hall r' Hin).
    rewrite bool_decide_eq_true_2 in Hall by assumption. simpl in Hall. lia.
Qed.

Lemma keep_group_max_filter {R K : Type} `{EqDecision K} (key : R -> K) (val : R -> Z)
    (df : list R) :
  keep_group_max key val df = List.filter (latest_in_group key val df) df.
Proof.
  unfold keep_group_max. rewrite boolean_index_filter.
  apply filter_ext. intros r. apply group_max_eqb.
Qed.


Lemma latest_predictors_rows (preds : PredictorArrays) :
  map fst (latest_predictors preds)
  = List.filter (latest_in_group pred_key predSnapshot (predictor_input preds))
                (predictor_input preds).
Proof.
  unfold latest_predictors. rewrite calculate_success_rate_eq, map_map. simpl.
  rewrite map_id. apply keep_group_max_filter.
Qed.

Lemma groupby_tail1_subset {R K : Type} `{EqDecision K} (key : R -> K) (df : list R) (r : R) :
  r ∈ groupby_tail1 key df -> r ∈ df.
Proof.
  induction df as [|x df IH]; simpl; [auto|].
  destruct (bool_decide _); [|intros [->|Hin]%elem_of_cons]; set_solver.
Qed.

Lemma filter_none {A : Type} (f : A -> bool) (l : list A) :
  (forall x, In x l -> f x = false) -> List.filter f l = [].
Proof.
  induction l as [|a l IH]; simpl; [reflexivity|].
  intros Hall. rewrite (Hall a) by auto. apply IH. auto.
Qed.


(** ** C10 *)


(** ** C1 *)

Lemma merge_left_length left right :
  length (merge_left left right)
  = sum_list (map (fun m => Nat.max 1 (length (joined right m))) left).
Proof.
  unfold merge_left. induction left as [|m left IH]; simpl in *; [reflexivity|].
  rewrite length_app, IH. f_equal.
  destruct (joined right m); simpl; [reflexivity|]. by rewrite length_map.
Qed.

Lemma merge_left_matched left right m p :
  (m, Some p) ∈ merge_left left right
  <-> m ∈ left /\ p ∈ right /\ predModelID p.1 = modelID m.1.
Proof.
  unfold merge_left. rewrite !list_elem_of_In, in_flat_map. split.
  - intros (m' & Hm' & Hin).
    destruct (joined right m') as [|p0 ps] eqn:Hj.
    + destruct Hin as [Heq|[]]. discriminate.
    + apply in_map_iff in Hin as (p' & Heq & Hp'). inversion Heq; subst.
      rewrite <- Hj in Hp'. apply filter_In in Hp' as [Hp' Hid].
      apply String.eqb_eq in Hid. auto.
  - intros (Hm & Hp & Hid). exists m. split; [assumption|].
    assert (In p (joined right m)) as Hj.
    { apply filter_In. split; [assumption|]. by apply String.eqb_eq. }
    destruct (joined right m); [destruct Hj|].
    apply in_map_iff. eauto.
Qed.

Lemma merge_left_unmatched left right m :
  (m, None) ∈ merge_left left right
  <-> m ∈ left /\ forall p, p ∈ right -> predModelID p.1 <> modelID m.1.
Proof.
  unfold merge_left. rewrite !list_elem_of_In, in_flat_map. split.
  - intros (m' & Hm' & Hin).
    destruct (joined right m') as [|p0 ps] eqn:Hj.
    + destruct Hin as [Heq|[]]. inversion Heq; subst. split; [assumption|].
      intros p Hp Hid. assert (In p (joined right m)) as Hin.
      { apply filter_In. split; [by apply list_elem_of_In|by apply String.eqb_eq]. }
      rewrite Hj in Hin. destruct Hin.
    + apply in_map_iff in Hin as (p' & Heq & _). discriminate.
  - intros (Hm & Hnone). exists m. split; [assumption|].
    unfold joined. rewrite (filter_none _ right); [by left|].
    intros p Hp. apply String.eqb_neq. apply Hnone. by apply list_elem_of_In.
Qed.

(** C1 (amended). The latest-predictor frame is the left join, on the
    model ID, of a model frame with the predictor rows whose snapshot is
    the largest of their (model ID, predictor name) group, the bin
    propensity added and the join key and predictor snapshot dropped.
    Every model row gives one row for each kept predictor row of its
    model ID, or a single row with the predictor columns missing when
    there is none; so the row count is the sum, over the model rows, of
    the larger of 1 and the number of kept predictor rows with that model
    ID, and a kept predictor row whose model ID no model row has is in no
    row of the result. *)
Theorem latest_pred_model_rows :
  forall (left : list (Rated ModelSnapshot)) (preds : PredictorArrays),
    let kept := latest_predictors preds in
    map fst kept
    = List.filter (latest_in_group pred_key predSnapshot (predictor_input preds))
                  (predictor_input preds)
    /\ Forall (fun p => p.2 = success_rate_spec (binPositives p.1) (binResponses p.1)) kept
    /\ length (map drop_keys (merge_left left kept))
       = sum_list (map (fun m => Nat.max 1 (length (joined kept m))) left)
    /\ (forall m p, (m, Some p) ∈ merge_left left kept
                    <-> m ∈ left /\ p ∈ kept /\ predModelID p.1 = modelID m.1)
    /\ (forall m, (m, None) ∈ merge_left left kept
                  <-> m ∈ left /\ forall p, p ∈ kept -> predModelID p.1 <> modelID m.1)
    /\ (forall self, _create_pred_model_df self preds
                     = map drop_keys (merge_left (dfModel self) kept)).
Proof.
  intros left preds kept. split; [apply latest_predictors_rows|].
  split; [apply latest_predictors_rates|].
  split; [rewrite length_map; apply merge_left_length|].
  split; [apply merge_left_matched|]. split; [apply merge_left_unmatched|].
  reflexivity.
Qed.

(** C1 as stated fails: with one model and two bins of one predictor
    taken at the same snapshot, the frame has two rows, while the
    predictor input has one distinct (model ID, predictor name) pair. *)
Lemma latest_pred_model_count_counterexample :
  exists report,
    ADMReport_init stable_sort one_model_arrays two_bin_arrays = Ok report
    /\ length (latestPredModel report) = 2%nat
    /\ length (unique (map pred_key (predictor_input two_bin_arrays))) = 1%nat.
Proof.
  eexists. split; [vm_compute; reflexivity|]. split; vm_compute; reflexivity.
Qed.

(** The join is onto [dfModel], every snapshot included: with the arrays
    of the docstring, where model1 has two snapshots, each of the two kept
    bins of its predictor appears once per snapshot. *)
Lemma latest_pred_model_joins_every_snapshot :
  exists report,
    ADMReport_init stable_sort docstring_arrays two_bin_arrays = Ok report
    /\ map (fun r => (lp_modelName r, lp_snapshot r, pp_binSymbol <$> lp_predictor r))
           (latestPredModel report)
       = [("model1", 1546300800, Some "<30"); ("model1", 1546300800, Some ">=30");
          ("model1", 1548979200, Some "<30"); ("model1", 1548979200, Some ">=30");
          ("model3", 1551398400, None)]
    /\ length (latestModels (adm_model report)) = 2%nat.
Proof.
  eexists. split; [vm_compute; reflexivity|]. split; vm_compute; reflexivity.
Qed.

(** ** C8 *)

Lemma filter_sublist {A : Type} (f : A -> bool) (l : list A) : List.filter f l `sublist_of` l.
Proof.
  induction l as [|a l IH]; simpl; [constructor|].
  destruct (f a); by constructor.
Qed.

Lemma elem_of_filter_bool {A : Type} (f : A -> bool) (l : list A) (x : A) :
  x ∈ List.filter f l <-> x ∈ l /\ f x = true.
Proof. rewrite !list_elem_of_In. apply filter_In. Qed.

Lemma unique_subset {A : Type} `{EqDecision A} (l : list A) (x : A) :
  x ∈ unique l -> x ∈ l.
Proof.
  induction l as [|a l IH]; simpl; [auto|].
  intros [->|Hin]%elem_of_cons; [left|right].
  apply elem_of_filter_bool in Hin as [Hin _]. auto.
Qed.

(** C8 (amended). The score-distribution view takes the rows of
    [latestPredModel] whose predictor name is Classifier; the predictor
    report takes the rows of the given model whose predictor name is not
    Classifier (a missing name included).  A non-empty allow-list keeps,
    of these, the rows whose model name, respectively predictor name, is
    in the list; an absent or empty list keeps all.  The rows are handed
    on unchanged and in order, grouped by model name for the score
    distribution. *)
Theorem distribution_rows_by_predictor_name :
  forall (self : ADMReport) (models predictors : option (list string)) (model_name : string),
    (forall r, r ∈ score_distribution_df self models
               <-> r ∈ latestPredModel self
                   /\ lp_predName r = Some "Classifier"
                   /\ (truthy models = true -> lp_modelName r ∈ default [] models))
    /\ score_distribution_df self models `sublist_of` latestPredModel self
    /\ (forall r, r ∈ predictor_report_df self model_name predictors
                  <-> r ∈ latestPredModel self
                      /\ lp_modelName r = model_name
                      /\ lp_predName r <> Some "Classifier"
                      /\ (truthy predictors = true ->
                          exists n, lp_predName r = Some n /\ n ∈ default [] predictors))
    /\ predictor_report_df self model_name predictors `sublist_of` latestPredModel self
    /\ (forall group title,
           (group, title) ∈ show_score_distribution self models ->
           exists model,
             title = "Model name: " +:+ model
             /\ group = List.filter (fun r => String.eqb (lp_modelName r) model)
                                    (score_distribution_df self models)
             /\ model ∈ map lp_modelName (score_distribution_df self models)).
Proof.
  intros self models predictors model_name.
  split; [|split; [|split; [|split]]].
  - intros r. unfold score_distribution_df.
    destruct (truthy models) eqn:Ht; rewrite !elem_of_filter_bool.
    + unfold isin_names. rewrite !bool_decide_eq_true. tauto.
    + rewrite bool_decide_eq_true. split; [|tauto]. intros [? ?]. repeat split; auto.
      discriminate.
  - unfold score_distribution_df. destruct (truthy models).
    + etransitivity; apply filter_sublist.
    + apply filter_sublist.
  - intros r. unfold predictor_report_df.
    destruct (truthy predictors) eqn:Ht; rewrite !elem_of_filter_bool.
    + rewrite andb_true_iff, negb_true_iff, bool_decide_eq_false, String.eqb_eq.
      unfold isin_names. split.
      * intros [(Hin & Hname & Hnot) Hsel]. repeat split; auto.
        intros _. destruct (lp_predName r) as [n|]; [|discriminate].
        exists n. split; [reflexivity|]. by apply bool_decide_eq_true in Hsel.
      * intros (Hin & Hname & Hnot & Hsel). split; [auto|].
        destruct (Hsel eq_refl) as (n & -> & Hn). by apply bool_decide_eq_true.
    + rewrite andb_true_iff, negb_true_iff, bool_decide_eq_false, String.eqb_eq.
      split; [|tauto]. intros (? & ? & ?). repeat split; auto. discriminate.
  - unfold predictor_report_df. destruct (truthy predictors).
    + etransitivity; apply filter_sublist.
    + apply filter_sublist.
  - intros group title Hin. unfold show_score_distribution in Hin.
    apply list_elem_of_In, in_map_iff in Hin as (model & Heq & Hmodel).
    inversion Heq; subst. exists model. split; [reflexivity|]. split; [reflexivity|].
    apply unique_subset. by apply list_elem_of_In.
Qed.

(** C8 as stated fails: the view selects by predictor name, not by entry
    type.  With a predictor named Classifier of entry type Active and a
    predictor named Age of entry type Classifier, the score distribution
    takes the first and not the second. *)
Lemma distribution_by_entry_type_counterexample :
  exists report,
    ADMReport_init stable_sort one_model_arrays mixed_entry_arrays = Ok report
    /\ map (fun r => pp_entryType <$> lp_predictor r) (latestPredModel report)
       = [Some "Active"; Some "Classifier"]
    /\ map (fun r => pp_entryType <$> lp_predictor r) (score_distribution_df report None)
       = [Some "Active"]
    /\ map (fun r => pp_entryType <$> lp_predictor r)
           (predictor_report_df report "model1" None)
       = [Some "Classifier"].
Proof.
  eexists. split; [vm_compute; reflexivity|]. repeat split; vm_compute; reflexivity.
Qed.

(** ** The two sorting routines meet the contract *)

Section Insertion.

Context {R : Type} (before : Z -> Z -> bool) (key : R -> Z).
Hypothesis before_le : forall a b, before a b = true -> a <= b.
Hypothesis not_before_ge : forall a b, before a b = false -> b <= a.

Lemma insert_by_perm (x : R) (l : list R) : insert_by before key x l ≡ₚ x :: l.
Proof.
  induction l as [|y l IH]; simpl; [reflexivity|].
  destruct (before (key x) (key y)); [reflexivity|].
  rewrite IH. apply Permutation_swap.
Qed.

Lemma insert_by_hd (x y : R) (l : list R) :
  key y <= key x -> HdRel (fun a b => key a <= key b) y l ->
  HdRel (fun a b => key a <= key b) y (insert_by before key x l).
Proof.
  intros Hyx Hhd. destruct l as [|z l]; simpl; [by constructor|].
  destruct (before (key x) (key z)); constructor; [assumption|].
  by inversion Hhd.
Qed.

Lemma insert_by_sorted (x : R) (l : list R) :
  Sorted (fun a b => key a <= key b) l ->
  Sorted (fun a b => key a <= key b) (insert_by before key x l).
Proof.
  induction 1 as [|y l Hsorted IH Hhd]; simpl; [repeat constructor|].
  destruct (before (key x) (key y)) eqn:Hb.
  - constructor; [by constructor|]. constructor. by apply before_le.
  - constructor; [exact IH|]. apply insert_by_hd; [|assumption]. by apply not_before_ge.
Qed.

Lemma foldr_insert_by_sorts (l : list R) :
  foldr (insert_by before key) [] l ≡ₚ l
  /\ Sorted (fun a b => key a <= key b) (foldr (insert_by before key) [] l).
Proof.
  induction l as [|x l [IHp IHs]]; simpl; [split; constructor|].
  split; [by rewrite insert_by_perm, IHp|by apply insert_by_sorted].
Qed.

End Insertion.

Lemma stable_sort_sorts : sorts stable_sort.
Proof.
  intros R key l. apply foldr_insert_by_sorts; intros a b; lia.
Qed.



(** ** C2 *)









(** ** Exceptions and sequencing *)

Lemma bind_Ok {A B : Type} (m : result A) (k : A -> result B) (b : B) :
  m ≫= k = Ok b -> exists a, m = Ok a /\ k a = Ok b.
Proof. destruct m as [a|e]; simpl; [eauto|discriminate]. Qed.



(** ** Distinct values *)

Lemma elem_of_unique {A : Type} `{EqDecision A} (l : list A) (x : A) :
  x ∈ unique l <-> x ∈ l.
Proof.
  split; [apply unique_subset|].
  induction l as [|a l IH]; simpl; [auto|].
  intros [->|Hin]%elem_of_cons; [by left|].
  destruct (decide (x = a)) as [->|Hne]; [by left|right].
  apply elem_of_filter_bool. split; [auto|].
  by rewrite bool_decide_eq_false_2.
Qed.

Lemma NoDup_filter_bool {A : Type} (f : A -> bool) (l : list A) :
  NoDup l -> NoDup (List.filter f l).
Proof. intros Hnd. eapply sublist_NoDup; [exact Hnd|apply filter_sublist]. Qed.

Lemma NoDup_unique {A : Type} `{EqDecision A} (l : list A) : NoDup (unique l).
Proof.
  induction l as [|a l IH]; simpl; constructor.
  - rewrite elem_of_filter_bool, negb_true_iff, bool_decide_eq_false. tauto.
  - by apply NoDup_filter_bool.
Qed.


Lemma insert_sorted_perm {A : Type} (le : A -> A -> bool) (x : A) (l : list A) :
  insert_sorted le x l ≡ₚ x :: l.
Proof.
  induction l as [|y l IH]; simpl; [reflexivity|].
  destruct (le x y); [reflexivity|]. rewrite IH. apply Permutation_swap.
Qed.

Lemma sort_unique_perm {A : Type} `{EqDecision A} (le : A -> A -> bool) (l : list A) :
  sort_unique le l ≡ₚ unique l.
Proof.
  unfold sort_unique. induction (unique l) as [|x u IH]; simpl; [reflexivity|].
  by rewrite insert_sorted_perm, IH.
Qed.

Lemma NoDup_sort_unique {A : Type} `{EqDecision A} (le : A -> A -> bool) (l : list A) :
  NoDup (sort_unique le l).
Proof. rewrite sort_unique_perm. apply NoDup_unique. Qed.



(** ** Column positions *)

Lemma day_position_None (c : Z) (cols : list Z) : c ∉ cols -> day_position c cols = None.
Proof.
  induction cols as [|x cols IH]; simpl; [reflexivity|].
  intros Hnot. apply not_elem_of_cons in Hnot as [Hne Hnot].
  assert ((x =? c) = false) as -> by lia. by rewrite IH.
Qed.

Lemma day_position_middle (c : Z) (pre post : list Z) :
  c ∉ pre -> day_position c (pre ++ c :: post) = Some (length pre).
Proof.
  induction pre as [|x pre IH]; simpl.
  - by rewrite Z.eqb_refl.
  - intros Hnot. apply not_elem_of_cons in Hnot as [Hne Hnot].
    assert ((x =? c) = false) as -> by lia. by rewrite IH.
Qed.

Lemma day_positions_seq (pre suf post : list Z) :
  NoDup (pre ++ suf) ->
  result_mapM (fun c => match day_position c (pre ++ suf ++ post) with
                        | Some i => Ok i
                        | None => Raise (KeyError "Date")
                        end) suf
  = Ok (seq (length pre) (length suf)).
Proof.
  revert pre. induction suf as [|x suf IH]; intros pre Hnd; simpl; [reflexivity|].
  rewrite day_position_middle.
  2:{ apply NoDup_app in Hnd as (_ & Hdisj & _). intros Hin. apply (Hdisj x Hin). by left. }
  simpl. replace (pre ++ x :: suf ++ post) with ((pre ++ [x]) ++ suf ++ post)
    by (by rewrite <- app_assoc).
  rewrite IH by (by rewrite <- app_assoc).
  rewrite length_app. simpl. by rewrite Nat.add_1_r.
Qed.

Lemma omap_lookup_seq {A : Type} (row : list A) (a n : nat) :
  omap (fun i => row !! i) (seq a n) = take n (drop a row).
Proof.
  revert a. induction n as [|n IH]; intros a; simpl; [reflexivity|].
  rewrite IH. destruct (row !! a) as [x|] eqn:Hx.
  - by rewrite (drop_S _ _ _ Hx).
  - apply lookup_ge_None in Hx. rewrite !drop_ge by lia. by rewrite !take_nil.
Qed.

(** ** The sign table *)

Lemma map_zip_with {A B C D : Type} (g : C -> D) (f : A -> B -> C) (l : list A) (k : list B) :
  map g (zip_with f l k) = zip_with (fun x y => g (f x y)) l k.
Proof.
  revert k. induction l as [|x l IH]; intros [|y k]; simpl; [reflexivity..|].
  by rewrite IH.
Qed.

Lemma sign_value (cur prev : option Z) :
  Some (default 1
          (mask_value (fun x => x <? 0) (-1)
             (mask_value (fun x => 0 <? x) 1
                match cur, prev with
                | Some a, Some b => Some (a - b)
                | _, _ => None
                end)))
  = Some (sign_of prev cur).
Proof.
  destruct cur as [a|], prev as [b|]; simpl; try reflexivity. f_equal.
  destruct (Z.sgn_spec (a - b)) as [[Hlt ->]|[[Heq ->]|[Hgt ->]]].
  - assert ((0 <? a - b) = true) as -> by lia. reflexivity.
  - rewrite <- Heq. reflexivity.
  - assert ((0 <? a - b) = false) as -> by lia. simpl.
    assert ((a - b <? 0) = true) as -> by lia. reflexivity.
Qed.

Lemma length_but_last {A : Type} (l : list A) : length (but_last l) = (length l - 1)%nat.
Proof. unfold but_last. rewrite length_take. lia. Qed.

Lemma length_subtract_row (row : list (option Z)) :
  length (subtract (drop 1 row) (but_last row)) = (length row - 1)%nat.
Proof.
  unfold subtract. rewrite length_zip_with, length_drop, length_but_last. lia.
Qed.

Lemma sign_row_steps (row : list (option Z)) (n : nat) :
  length row = S n ->
  map (fun x => Some (default 1 x))
      (omap (fun i =>
               (map (mask_value (fun x => x <? 0) (-1))
                    (map (mask_value (fun x => 0 <? x) 1)
                         (subtract (drop 1 row) (but_last row))) ++ [Some 1]) !! i)
            (n :: seq 0 n))
  = sign_row row.
Proof.
  intros Hlen.
  set (d := map (mask_value (fun x => x <? 0) (-1))
                (map (mask_value (fun x => 0 <? x) 1)
                     (subtract (drop 1 row) (but_last row)))).
  assert (length d = n) as Hd.
  { unfold d. rewrite !length_map, length_subtract_row. lia. }
  cbn [omap list_omap].
  rewrite lookup_app_r by lia. rewrite Hd, Nat.sub_diag. cbn [lookup list_lookup].
  rewrite omap_lookup_seq, drop_0, take_app_length' by done.
  unfold sign_row, d, subtract. cbn [map]. f_equal.
  rewrite !map_map, map_zip_with.
  apply zip_with_ext; [|reflexivity..]. intros cur prev. apply sign_value.
Qed.

Lemma create_sign_df_spec (t : Table) (c0 : Z) (cs : list Z) :
  t_columns t = c0 :: cs ->
  NoDup (c0 :: cs) ->
  Forall (fun row => length row = S (length cs)) (t_values t) ->
  _create_sign_df t
  = Ok {| t_index := t_index t;
          t_columns := c0 :: cs;
          t_values := map sign_row (t_values t) |}.
Proof.
  intros Hcols Hnd Hrows. unfold _create_sign_df. rewrite Hcols.
  apply NoDup_cons in Hnd as [Hc0 Hcs]. rewrite Forall_forall in Hrows.
  assert (forallb (fun d => Nat.eqb (1 + length d) (length (c0 :: cs)))
            (map (fun row => subtract (drop 1 row) (but_last row)) (t_values t)) = true)
    as ->.
  { apply forallb_forall. intros d (row & <- & Hrow)%in_map_iff.
    apply list_elem_of_In, Hrows in Hrow.
    apply Nat.eqb_eq. rewrite length_subtract_row, Hrow. simpl. lia. }
  unfold assign_column, mask, select_days. cbn [t_columns t_index t_values drop].
  rewrite !drop_0, (day_position_None c0 cs Hc0). cbn [t_columns t_index t_values result_mapM].
  rewrite (day_position_middle c0 cs [] Hc0). cbn [mbind result_bind].
  pose proof (day_positions_seq [] cs [c0] Hcs) as Hpos.
  cbn [app length] in Hpos. rewrite Hpos. clear Hpos.
  cbn [mbind result_bind length]. unfold fillna. cbn [t_columns t_index t_values].
  f_equal. f_equal. rewrite !map_map. apply map_ext_in.
  intros row Hrow%list_elem_of_In%Hrows.
  rewrite <- (sign_row_steps row (length cs) Hrow). rewrite !map_map. reflexivity.
Qed.

Lemma sign_of_range (prev cur : option Z) :
  sign_of prev cur = -1 \/ sign_of prev cur = 0 \/ sign_of prev cur = 1.
Proof.
  destruct prev as [a|], cur as [b|]; simpl; auto.
  destruct (Z.sgn_spec (b - a)) as [[_ ->]|[[_ ->]|[_ ->]]]; auto.
Qed.

Lemma sign_row_length (row : list (option Z)) :
  row <> [] -> length (sign_row row) = length row.
Proof.
  intros Hne. unfold sign_row. simpl.
  rewrite length_zip_with, length_drop, length_but_last.
  destruct row; [done|]. simpl. lia.
Qed.

Lemma sign_row_step (row : list (option Z)) (j : nat) (prev cur : option Z) :
  row !! j = Some prev -> row !! S j = Some cur ->
  sign_row row !! S j = Some (Some (sign_of prev cur)).
Proof.
  intros Hprev Hcur. unfold sign_row.
  rewrite lookup_cons_ne_0 by lia. cbn [Nat.pred].
  rewrite lookup_zip_with, lookup_drop. cbn [Nat.add]. rewrite Hcur. simpl.
  unfold but_last. rewrite lookup_take_lt.
  - rewrite Hprev. reflexivity.
  - apply lookup_lt_Some in Hcur. lia.
Qed.

Lemma sign_row_values (row : list (option Z)) :
  Forall (fun v => v = Some (-1) \/ v = Some 0 \/ v = Some 1) (sign_row row).
Proof.
  unfold sign_row. constructor; [auto|].
  apply Forall_forall. intros v [j Hj]%list_elem_of_lookup.
  apply lookup_zip_with_Some in Hj as (cur & prev & -> & _).
  destruct (sign_of_range prev cur) as [-> | [-> | ->]]; auto.
Qed.

(** ** C3 *)

Lemma pivot_Ok (long : list LongRow) (t : Table) :
  pivot long = Ok t ->
  t_index t = sort_unique String.leb (map (fun c => c.1.1) long)
  /\ t_columns t = sort_unique Z.leb (map (fun c => c.1.2) long)
  /\ t_values t
     = map (fun n => map (fun d => long_lookup long n d) (t_columns t)) (t_index t)
  /\ NoDup (t_columns t)
  /\ Forall (fun row => length row = length (t_columns t)) (t_values t).
Proof.
  unfold pivot. destruct (bool_decide _); [|discriminate].
  intros [= <-]. simpl. repeat split; [apply NoDup_sort_unique|].
  rewrite List.Forall_map. apply Forall_forall. intros n _. by rewrite length_map.
Qed.

Lemma create_sign_df_Ok (t s : Table) :
  _create_sign_df t = Ok s ->
  NoDup (t_columns t) ->
  Forall (fun row => length row = length (t_columns t)) (t_values t) ->
  t_columns t <> []
  /\ s = {| t_index := t_index t;
            t_columns := t_columns t;
            t_values := map sign_row (t_values t) |}.
Proof.
  intros Hs Hnd Hrows. destruct (t_columns t) as [|c0 cs] eqn:Hcols.
  - exfalso. unfold _create_sign_df in Hs. rewrite Hcols in Hs.
    destruct (forallb _ _); discriminate.
  - split; [done|]. rewrite (create_sign_df_spec t c0 cs Hcols Hnd Hrows) in Hs.
    by inversion Hs.
Qed.

Lemma generate_heatmap_df_Tables sort_values self lookback query fill_null_days annot sign :
  generate_heatmap_df sort_values self lookback query fill_null_days
  = Ok (Tables annot sign) ->
  exists long, pivot long = Ok annot /\ _create_sign_df annot = Ok sign.
Proof.
  unfold generate_heatmap_df. intros H.
  apply bind_Ok in H as (df1 & _ & H).
  apply bind_Ok in H as (df2 & _ & H).
  apply bind_Ok in H as (df3 & _ & H).
  destruct (series_max _) as [latest|]; [|discriminate].
  destruct (_ <? 1)%nat; [discriminate|].
  apply bind_Ok in H as (long & _ & H).
  apply bind_Ok in H as (a & Hpivot & H).
  apply bind_Ok in H as (s & Hsign & H).
  inversion H; subst. eauto.
Qed.

(** C3. Whenever [generate_heatmap_df] returns the two tables, the sign
    table has the index and the date columns of the annotation table and
    rows of the same length; the entry of every row under the first date
    is +1; the entry under a later date is the sign of the day's value
    minus the previous day's value, and +1 when either value is missing;
    every entry is -1, 0 or +1. *)
Theorem sign_table_of_annotation :
  forall sort_values self lookback query fill_null_days annot sign,
    generate_heatmap_df sort_values self lookback query fill_null_days
    = Ok (Tables annot sign) ->
    t_index sign = t_index annot
    /\ t_columns sign = t_columns annot
    /\ Forall2
         (fun row srow =>
            length srow = length row
            /\ srow !! 0%nat = Some (Some 1)
            /\ (forall j prev cur,
                   row !! j = Some prev -> row !! S j = Some cur ->
                   srow !! S j = Some (Some (sign_of prev cur)))
            /\ Forall (fun v => v = Some (-1) \/ v = Some 0 \/ v = Some 1) srow)
         (t_values annot) (t_values sign).
Proof.
  intros sort_values self lookback query fill_null_days annot sign H.
  apply generate_heatmap_df_Tables in H as (long & Hpivot & Hsign).
  apply pivot_Ok in Hpivot as (_ & _ & _ & Hnd & Hrows).
  apply create_sign_df_Ok in Hsign as [Hcols ->]; [|assumption..].
  simpl. split; [reflexivity|]. split; [reflexivity|].
  apply Forall2_fmap_r, Forall_Forall2_diag.
  eapply Forall_impl; [exact Hrows|]. intros row Hlen. simpl in Hlen.
  assert (row <> []) as Hne.
  { intros ->. simpl in Hlen. destruct (t_columns annot); [done|discriminate]. }
  split; [by apply sign_row_length|]. split; [reflexivity|].
  split; [apply sign_row_step|apply sign_row_values].
Qed.

(** The property on two models over three days: the responses of A go
    100, 90, 90 and those of B go 50, missing, 60. *)
Lemma sign_table_of_annotation_witness :
  exists annot sign,
    generate_heatmap_df stable_sort (report_of stable_sort heatmap_arrays) 15 (PyDict ∅) true
    = Ok (Tables annot sign)
    /\ t_values annot = [[Some 100; Some 90; Some 90]; [Some 50; None; Some 60]]
    /\ t_values sign = [[Some 1; Some (-1); Some 0]; [Some 1; Some 1; Some 1]]
    /\ t_index sign = t_index annot
    /\ t_columns sign = t_columns annot.
Proof.
  set (annot := {| t_index := ["A"; "B"]; t_columns := [1; 2; 3];
                   t_values := [[Some 100; Some 90; Some 90]; [Some 50; None; Some 60]] |}).
  set (sign := {| t_index := ["A"; "B"]; t_columns := [1; 2; 3];
                  t_values := [[Some 1; Some (-1); Some 0]; [Some 1; Some 1; Some 1]] |}).
  assert (generate_heatmap_df stable_sort (report_of stable_sort heatmap_arrays)
            15 (PyDict ∅) true = Ok (Tables annot sign)) as Hrun
    by (vm_compute; reflexivity).
  destruct (sign_table_of_annotation _ _ _ _ _ _ _ Hrun) as (Hindex & Hcolumns & _).
  exists annot, sign. split; [exact Hrun|]. split; [reflexivity|].
  split; [reflexivity|]. split; [exact Hindex|exact Hcolumns].
Defined.

(** ** The rows that reach the heatmap *)


Lemma filter_map_bool {A B : Type} (f : B -> bool) (g : A -> B) (l : list A) :
  List.filter f (map g l) = map g (List.filter (fun a => f (g a)) l).
Proof.
  induction l as [|a l IH]; simpl; [reflexivity|].
  destruct (f (g a)); simpl; by rewrite IH.
Qed.

Lemma isin_rows (items : list (string * PyValue)) :
  forall (A : Type) (g : A -> list Cell) (l : list A) (df f : DataFrame),
    df_rows df = map g l ->
    result_foldM
      (fun _df kv =>
         match kv.2 with
         | PyList val => isin_filter kv.1 val _df
         | PyNotList =>
             Raise (TypeError "only list-like objects are allowed to be passed to isin()")
         end) items df = Ok f ->
    exists l', l' `sublist_of` l /\ df_columns f = df_columns df /\ df_rows f = map g l'.
Proof.
  induction items as [|[col v] items IH]; intros A g l df f Hrows; simpl.
  - intros [= <-]. exists l. done.
  - intros (df' & Hstep & Hrest)%bind_Ok.
    destruct v as [val|]; [|discriminate].
    unfold isin_filter in Hstep. destruct (column_position col (df_columns df)) as [i|];
      [|discriminate].
    inversion Hstep; subst df'; clear Hstep.
    rewrite Hrows, filter_map_bool in Hrest.
    eapply IH in Hrest as (l' & Hsub & Hcols & Hrows'); [|reflexivity].
    exists l'. split; [|done].
    etransitivity; [exact Hsub|apply filter_sublist].
Qed.

Lemma apply_query_rows (query : PyQuery) (l : list (Rated ModelSnapshot)) (f : DataFrame) :
  _apply_query query (to_frame l) = Ok f ->
  exists l', l' `sublist_of` l
             /\ df_columns f = ["model name"; "positives"; "responses"; "model performance";
                                "model snapshot"; "success rate (%)"]
             /\ df_rows f = map (fun r => drop 1 (model_cells r)) l'.
Proof.
  unfold _apply_query. intros (df & Hdrop & H)%bind_Ok.
  unfold drop_column in Hdrop. rewrite bool_decide_eq_true_2 in Hdrop by (simpl; set_solver).
  inversion Hdrop; subst df; clear Hdrop.
  assert (forall df,
             df = {| df_columns := ["model name"; "positives"; "responses";
                                    "model performance"; "model snapshot";
                                    "success rate (%)"];
                     df_rows := map (fun r => drop 1 (model_cells r)) l |} ->
             (if query_nonempty query
              then match query with
                   | PyDict d =>
                       if forallb (fun kv => is_list kv.2) (map_to_list d) then
                         result_foldM
                           (fun _df kv =>
                              match kv.2 with
                              | PyList val => isin_filter kv.1 val _df
                              | PyNotList =>
                                  Raise (TypeError "only list-like objects are allowed to be passed to isin()")
                              end) (map_to_list d) df
                       else Raise (ValueError "query values must be list")
                   | PyNotDict => Raise (TypeError "query must be a dict where values are lists")
                   end
              else Ok df) = Ok f ->
             exists l', l' `sublist_of` l
                        /\ df_columns f = ["model name"; "positives"; "responses";
                                           "model performance"; "model snapshot";
                                           "success rate (%)"]
                        /\ df_rows f = map (fun r => drop 1 (model_cells r)) l') as Hgen.
  { intros df -> Hf. destruct (query_nonempty query).
    - destruct query as [d|]; [|discriminate].
      destruct (forallb _ _); [|discriminate].
      eapply isin_rows in Hf as (l' & Hsub & Hcols & Hrows); [|reflexivity].
      exists l'. done.
    - inversion Hf; subst f. exists l. done. }
  eapply Hgen; [|exact H]. simpl. f_equal. rewrite map_map. reflexivity.
Qed.


(** ** Frames whose rows fall on one day *)





Lemma filter_all {A : Type} (f : A -> bool) (l : list A) :
  (forall x, x ∈ l -> f x = true) -> List.filter f l = l.
Proof.
  induction l as [|a l IH]; simpl; [reflexivity|]. intros Hall.
  rewrite (Hall a) by left. rewrite IH; [reflexivity|]. intros; apply Hall. by right.
Qed.





Lemma sign_row_singleton (v : option Z) : sign_row [v] = [Some 1].
Proof. reflexivity. Qed.






(** ** C4 *)


Lemma sublist_Forall_bool {A : Type} (P : A -> Prop) (l k : list A) :
  l `sublist_of` k -> Forall P k -> Forall P l.
Proof.
  induction 1 as [|x l k _ IH|x l k _ IH]; intros Hall; [constructor|..];
    inversion Hall; subst; [constructor|]; auto.
Qed.





(** ** C5 *)

(** C5 fails at the no-data branch.  With lookbackDays = 0 on the
    three-day example [generate_heatmap_df] returns the bare empty frame,
    which is not a pair of tables, and [show_calendar_heatmap], which
    unpacks two tables from it, raises. *)
Lemma heatmap_no_data_is_not_a_pair :
  generate_heatmap_df stable_sort (report_of stable_sort heatmap_arrays)
                      0 (PyDict ∅) true = Ok EmptyFrame
  /\ show_calendar_heatmap stable_sort (report_of stable_sort heatmap_arrays)
                           0 true (PyDict ∅)
     = Raise (ValueError "not enough values to unpack (expected 2, got 0)")
  /\ ModelReport_init stable_sort heatmap_arrays
     = Ok (report_of stable_sort heatmap_arrays).
Proof. repeat split; vm_compute; reflexivity. Qed.

(** * Further properties *)

(** ** The frames built at construction *)

Lemma model_frame_columns ids names pos resp auc snap :
  length names = length ids -> length pos = length ids -> length resp = length ids ->
  length auc = length ids -> length snap = length ids ->
  map modelID (model_frame ids names pos resp auc snap) = ids
  /\ map modelName (model_frame ids names pos resp auc snap) = names
  /\ map positives (model_frame ids names pos resp auc snap) = pos
  /\ map responses (model_frame ids names pos resp auc snap) = resp
  /\ map performance (model_frame ids names pos resp auc snap) = auc
  /\ map snapshot (model_frame ids names pos resp auc snap) = snap.
Proof.
  revert names pos resp auc snap.
  induction ids as [|i ids IH]; intros [|n names] [|p pos] [|r resp] [|a auc] [|s snap];
    simpl; try discriminate; [done|].
  intros H1 H2 H3 H4 H5.
  destruct (IH names pos resp auc snap) as (E1 & E2 & E3 & E4 & E5 & E6); [lia..|].
  by rewrite E1, E2, E3, E4, E5, E6.
Qed.

(** [ModelReport.__init__], arrays of one length: the report is built and
    the columns of [dfModel] are the six input arrays, item for item and
    in input order; so [dfModel] has one row per array position. *)
Theorem dfModel_columns_are_the_arrays :
  forall sort_values arrays,
    same_length arrays ->
    exists report,
      ModelReport_init sort_values arrays = Ok report
      /\ map (fun r => modelID r.1) (dfModel report) = a_modelID arrays
      /\ map (fun r => modelName r.1) (dfModel report) = a_modelName arrays
      /\ map (fun r => positives r.1) (dfModel report) = a_positives arrays
      /\ map (fun r => responses r.1) (dfModel report) = a_responses arrays
      /\ map (fun r => performance r.1) (dfModel report) = a_modelAUC arrays
      /\ map (fun r => snapshot r.1) (dfModel report) = a_modelSnapshot arrays
      /\ length (dfModel report) = length (a_modelID arrays).
Proof.
  intros sort_values arrays Hsame. unfold ModelReport_init.
  rewrite (check_data_shape_ok _ Hsame). cbn [mbind result_bind].
  eexists. split; [reflexivity|]. cbn [dfModel]. unfold _create_model_df, _set_proper_type.
  cbn [fst]. rewrite calculate_success_rate_eq.
  destruct Hsame as (H1 & H2 & H3 & H4 & H5).
  destruct (model_frame_columns _ _ _ _ _ _ H1 H2 H3 H4 H5) as (E1 & E2 & E3 & E4 & E5 & E6).
  rewrite !map_map. cbn [fst]. rewrite length_map.
  repeat split; try assumption.
  rewrite <- E1 at 2. by rewrite length_map.
Qed.

Lemma dfModel_columns_are_the_arrays_witness :
  exists report,
    ModelReport_init stable_sort docstring_arrays = Ok report
    /\ map (fun r => responses r.1) (dfModel report) = [100; 110; 200]
    /\ length (dfModel report) = 3%nat.
Proof.
  destruct (dfModel_columns_are_the_arrays stable_sort docstring_arrays)
    as (report & Hinit & _ & _ & _ & Hresp & _ & _ & Hlen).
  - repeat split.
  - exists report. split; [exact Hinit|]. split; [exact Hresp|exact Hlen].
Defined.

Lemma groupby_tail1_sublist {R K : Type} `{EqDecision K} (key : R -> K) (df : list R) :
  groupby_tail1 key df `sublist_of` df.
Proof.
  induction df as [|r df IH]; simpl; [constructor|].
  destruct (bool_decide _); by constructor.
Qed.

Lemma groupby_tail1_NoDup {R K : Type} `{EqDecision K} (key : R -> K) (df : list R) :
  NoDup (map key (groupby_tail1 key df)).
Proof.
  induction df as [|r df IH]; simpl; [constructor|].
  destruct (bool_decide (key r ∈ map key df)) eqn:Hin; [exact IH|].
  simpl. constructor; [|exact IH].
  apply bool_decide_eq_false in Hin. intros Hr. apply Hin.
  apply list_elem_of_In, in_map_iff in Hr as (x & Hk & Hx).
  rewrite <- Hk. apply list_elem_of_In, in_map, list_elem_of_In.
  apply (groupby_tail1_subset key). by apply list_elem_of_In.
Qed.

Lemma StronglySorted_sublist {A : Type} (R : A -> A -> Prop) (l k : list A) :
  l `sublist_of` k -> StronglySorted R k -> StronglySorted R l.
Proof.
  induction 1 as [|x l k Hsub IH|x l k Hsub IH]; intros Hk; [constructor|..].
  - apply StronglySorted_inv in Hk as [Hk Hall]. constructor; [auto|].
    by apply (sublist_Forall_bool _ l k).
  - apply StronglySorted_inv in Hk as [Hk _]. auto.
Qed.

(** [_create_model_df]: [latestModels] is in ascending order of snapshot
    time, whatever sorted permutation [sort_values] returns, and no model
    name occurs in it twice. *)
Theorem latestModels_ascending :
  forall sort_values, sorts sort_values -> forall arrays,
    StronglySorted (fun a b : Rated ModelSnapshot => snapshot a.1 <= snapshot b.1)
                   (_create_model_df sort_values arrays).2
    /\ NoDup (map (fun r : Rated ModelSnapshot => modelName r.1)
                  (_create_model_df sort_values arrays).2).
Proof.
  intros sort_values Hsorts arrays. cbn [_create_model_df snd]. split.
  - eapply StronglySorted_sublist; [apply groupby_tail1_sublist|].
    apply Sorted_StronglySorted; [intros a b c; simpl; lia|].
    apply Hsorts.
  - apply groupby_tail1_NoDup.
Qed.

Lemma latestModels_ascending_witness :
  StronglySorted (fun a b : Rated ModelSnapshot => snapshot a.1 <= snapshot b.1)
                 (_create_model_df stable_sort heatmap_arrays).2
  /\ map (fun r : Rated ModelSnapshot => (modelName r.1, snapshot r.1))
         (_create_model_df stable_sort heatmap_arrays).2
     = [("A", 262800); ("B", 262800)].
Proof.
  split; [|reflexivity].
  apply (latestModels_ascending stable_sort stable_sort_sorts heatmap_arrays).
Defined.

(** ** Queries *)

Lemma column_position_None (col : string) (columns : list string) :
  column_position col columns = None <-> col ∉ columns.
Proof.
  induction columns as [|c columns IH]; simpl.
  - split; [intros _; apply not_elem_of_nil|done].
  - rewrite not_elem_of_cons. destruct (String.eqb c col) eqn:Hc.
    + apply String.eqb_eq in Hc. split; [discriminate|]. intros [Hne _]. congruence.
    + apply String.eqb_neq in Hc. destruct (column_position col columns); simpl.
      * split; [discriminate|]. intros [_ Hnot]. by apply IH in Hnot.
      * split; [|done]. intros _. split; [congruence|]. by apply IH.
Qed.

Lemma filter_filter_bool {A : Type} (f g : A -> bool) (l : list A) :
  List.filter f (List.filter g l) = List.filter (fun x => g x && f x) l.
Proof.
  induction l as [|a l IH]; simpl; [reflexivity|].
  destruct (g a); simpl; [destruct (f a)|]; by rewrite IH.
Qed.

Lemma drop_column_model_ID (df : DataFrame) :
  "model ID" ∈ df_columns df -> drop_column "model ID" df = Ok (without_model_ID df).
Proof.
  intros Hin. unfold drop_column, without_model_ID.
  rewrite bool_decide_eq_true_2 by assumption. by rewrite boolean_index_filter.
Qed.

Lemma without_model_ID_columns (df : DataFrame) :
  "model ID" ∉ df_columns (without_model_ID df).
Proof.
  simpl. rewrite elem_of_filter_bool, negb_true_iff, String.eqb_neq. tauto.
Qed.

Abbreviation isin_step :=
  (fun (_df : DataFrame) (kv : string * PyValue) =>
     match kv.2 with
     | PyList val => isin_filter kv.1 val _df
     | PyNotList =>
         Raise (TypeError "only list-like objects are allowed to be passed to isin()")
     end) (only parsing).

Lemma isin_loop_cons (col : string) (val : list Cell) (items : list (string * PyValue))
    (columns : list string) (rows : list (list Cell)) :
  result_foldM isin_step ((col, PyList val) :: items)
               {| df_columns := columns; df_rows := rows |}
  = match column_position col columns with
    | Some i =>
        result_foldM isin_step items
          {| df_columns := columns;
             df_rows := List.filter (fun row => cell_in columns row col val) rows |}
    | None => Raise (KeyError col)
    end.
Proof.
  cbn [result_foldM snd fst]. unfold isin_filter. cbn [df_columns df_rows].
  destruct (column_position col columns) as [i|] eqn:Hpos; [|reflexivity].
  cbn [mbind result_bind]. f_equal. f_equal. apply filter_ext. intros row.
  unfold cell_in. by rewrite Hpos.
Qed.

(** The filtering loop of [_apply_query] on a frame with the columns
    [columns], for items whose values are lists: it stops with a KeyError
    at the first key that is no column, and otherwise keeps the rows that
    meet every item. *)
Lemma isin_loop (items : list (string * PyValue)) (columns : list string) :
  forall rows,
    (forall kv, kv ∈ items -> is_list kv.2 = true) ->
    (Forall (fun kv => kv.1 ∈ columns) items
     /\ result_foldM isin_step items {| df_columns := columns; df_rows := rows |}
        = Ok {| df_columns := columns;
                df_rows := List.filter (passes columns items) rows |})
    \/ (exists kv, kv ∈ items
                   /\ (kv.1 ∉ columns)
                   /\ result_foldM isin_step items
                        {| df_columns := columns; df_rows := rows |}
                      = Raise (KeyError kv.1)).
Proof.
  induction items as [|[col v] items IH]; intros rows Hlists.
  - left. split; [constructor|]. simpl. by rewrite filter_all.
  - assert (is_list v = true) as Hv by (apply (Hlists (col, v)); by left).
    destruct v as [val|]; [clear Hv|discriminate]. rewrite isin_loop_cons.
    destruct (column_position col columns) as [i|] eqn:Hpos.
    + assert (col ∈ columns) as Hcol.
      { destruct (decide (col ∈ columns)) as [|Hn]; [done|].
        apply column_position_None in Hn. congruence. }
      destruct (IH (List.filter (fun row => cell_in columns row col val) rows))
        as [[Hall Hok]|(kv & Hkv & Hnot & Hraise)].
      * intros kv Hkv. apply Hlists. by right.
      * left. split; [by constructor|]. rewrite Hok. f_equal. f_equal.
        rewrite filter_filter_bool. reflexivity.
      * right. exists kv. split; [by right|]. split; [assumption|]. exact Hraise.
    + right. exists (col, PyList val). split; [by left|].
      split; [by apply column_position_None|reflexivity].
Qed.



(** [_apply_query] with a dict of lists one of whose keys is no column
    of the frame without ['model ID']: KeyError on such a key.  The key
    ['model ID'] itself is one: the model ID cannot be queried. *)
Theorem apply_query_unknown_column :
  forall (df : DataFrame) (d : gmap string PyValue),
    "model ID" ∈ df_columns df ->
    (forall col v, d !! col = Some v -> is_list v = true) ->
    (exists col, is_Some (d !! col) /\ col ∉ df_columns (without_model_ID df)) ->
    exists col,
      is_Some (d !! col)
      /\ (col ∉ df_columns (without_model_ID df))
      /\ _apply_query (PyDict d) df = Raise (KeyError col).
Proof.
  intros df d Hin Hvalid (col0 & [v0 Hv0] & Hnot0). unfold _apply_query.
  rewrite (drop_column_model_ID df Hin). cbn [mbind result_bind].
  assert (forall kv, kv ∈ map_to_list d -> is_list kv.2 = true) as Hlists.
  { intros [col v] Hkv%elem_of_map_to_list. by apply (Hvalid col v). }
  apply elem_of_map_to_list in Hv0.
  assert (query_nonempty (PyDict d) = true) as ->.
  { simpl. apply negb_true_iff, bool_decide_eq_false. intros Hnil.
    rewrite Hnil in Hv0. by apply elem_of_nil in Hv0. }
  rewrite (proj2 (forallb_forall _ _)) by (intros kv Hkv%list_elem_of_In; by apply Hlists).
  destruct (isin_loop (map_to_list d) (df_columns (without_model_ID df))
              (df_rows (without_model_ID df)) Hlists)
    as [[Hall _]|([col v] & Hkv & Hnot & Hraise)].
  - exfalso. apply Hnot0. rewrite Forall_forall in Hall. exact (Hall _ Hv0).
  - exists col. split; [|split; [exact Hnot|exact Hraise]].
    exists v. by apply elem_of_map_to_list.
Qed.


Lemma apply_query_unknown_column_witness :
  exists col,
    _apply_query (PyDict {["model ID" := PyList [CStr "i1"]]})
                 (to_frame (dfModel (report_of stable_sort docstring_arrays)))
    = Raise (KeyError col).
Proof.
  destruct (apply_query_unknown_column
              (to_frame (dfModel (report_of stable_sort docstring_arrays)))
              {["model ID" := PyList [CStr "i1"]]})
    as (col & _ & _ & Hraise).
  - simpl. set_solver.
  - by intros col v [<- <-]%lookup_singleton_Some.
  - exists "model ID". split; [by rewrite lookup_singleton_eq|].
    apply without_model_ID_columns.
  - exists col. exact Hraise.
Defined.

(** ** The lookback window *)

Lemma series_max_spec (l : list Z) :
  l <> [] -> exists m, series_max l = Some m /\ m ∈ l /\ Forall (fun x => x <= m) l.
Proof.
  destruct l as [|x l]; [done|]. intros _. simpl. eexists. split; [reflexivity|].
  induction l as [|y l [Hin Hall]]; simpl.
  - split; [by left|]. constructor; [lia|constructor].
  - apply Forall_cons in Hall as [Hx Hall]. split.
    + destruct (Z.max_spec y (foldr Z.max x l)) as [[_ ->]|[_ ->]].
      * apply elem_of_cons in Hin as [->|Hin]; [by left|]. right. by right.
      * right. by left.
    + constructor; [lia|]. constructor; [lia|].
      eapply Forall_impl; [exact Hall|]. simpl. lia.
Qed.








(** ** The graphs of the predictor views *)

Lemma filter_disjoint_app {A : Type} (f g : A -> bool) (l : list A) :
  (forall x, f x = true -> g x = false) ->
  List.filter f l ++ List.filter g l ≡ₚ List.filter (fun x => f x || g x) l.
Proof.
  intros Hdis. induction l as [|a l IH]; simpl; [reflexivity|].
  destruct (f a) eqn:Hf; simpl.
  - rewrite (Hdis a Hf). by rewrite IH.
  - destruct (g a); [|exact IH].
    rewrite <- IH. symmetry. apply Permutation_middle.
Qed.

(** Splitting a frame by the distinct values of a column loses and
    repeats no row. *)
Lemma groups_perm {A K : Type} `{EqDecision K} (key : A -> K) (sel : K -> A -> bool)
    (l : list A) (ks : list K) :
  (forall k r, sel k r = true <-> key r = k) ->
  NoDup ks ->
  (forall r, r ∈ l -> key r ∈ ks) ->
  concat (map (fun k => List.filter (sel k) l) ks) ≡ₚ l.
Proof.
  intros Hsel Hnd Hall.
  assert (concat (map (fun k => List.filter (sel k) l) ks)
          ≡ₚ List.filter (fun r => bool_decide (key r ∈ ks)) l) as ->.
  { clear Hall. induction Hnd as [|k ks Hk Hnd IH]; simpl.
    - rewrite filter_none; [reflexivity|]. intros r _. reflexivity.
    - rewrite IH. rewrite filter_disjoint_app.
      + erewrite List.filter_ext; [reflexivity|]. intros r. simpl.
        destruct (sel k r) eqn:Hs; simpl.
        * apply Hsel in Hs. symmetry. apply bool_decide_eq_true. rewrite Hs. by left.
        * apply bool_decide_ext. rewrite elem_of_cons. split; [tauto|].
          intros [Heq|Hin]; [|exact Hin]. apply Hsel in Heq. congruence.
      + intros r Hs. apply Hsel in Hs. apply bool_decide_eq_false. by rewrite Hs. }
  rewrite filter_all; [reflexivity|]. intros r Hr.
  apply bool_decide_eq_true. by apply Hall.
Qed.

Lemma group_nonempty {A K : Type} `{EqDecision K} (key : A -> K) (sel : K -> A -> bool)
    (l : list A) (k : K) :
  (forall k r, sel k r = true <-> key r = k) ->
  k ∈ unique (map key l) -> List.filter (sel k) l <> [].
Proof.
  intros Hsel Hk. apply elem_of_unique, list_elem_of_In, in_map_iff in Hk as (r & Hkey & Hr).
  intros Hnil. assert (In r (List.filter (sel k) l)) as Hin.
  { apply filter_In. split; [exact Hr|]. by apply Hsel. }
  rewrite Hnil in Hin. destruct Hin.
Qed.

Lemma result_mapM_Some {A B : Type} (f : A -> B) (e : exn) (l : list (option A)) :
  Forall (fun x => x <> None) l ->
  result_mapM (fun x => match x with Some a => Ok (f a) | None => Raise e end) l
  = Ok (omap (fun x => f <$> x) l).
Proof.
  induction 1 as [|x l Hx Hall IH]; simpl; [reflexivity|].
  destruct x as [a|]; [|done]. simpl. by rewrite IH.
Qed.

Lemma result_mapM_None {A B : Type} (f : A -> B) (e : exn) (l : list (option A)) :
  None ∈ l ->
  result_mapM (fun x => match x with Some a => Ok (f a) | None => Raise e end) l
  = Raise e.
Proof.
  induction l as [|x l IH]; [by intros ?%not_elem_of_nil|].
  intros Hin. simpl. destruct x as [a|]; [|reflexivity]. simpl.
  rewrite IH; [reflexivity|]. apply elem_of_cons in Hin as [?|?]; [discriminate|assumption].
Qed.

(** The graphs of [show_score_distribution]: one per distinct model name
    among the selected Classifier rows, in order of first appearance.
    Every selected row is in the frame of exactly one graph, no graph
    has an empty frame, the rows of a graph have the model name of its
    title, and no two graphs have the same title. *)
Theorem score_distribution_graphs_partition :
  forall (self : ADMReport) (models : option (list string)),
    concat (map fst (show_score_distribution self models))
      ≡ₚ score_distribution_df self models
    /\ map snd (show_score_distribution self models)
       = map (fun model => "Model name: " +:+ model)
             (unique (map lp_modelName (score_distribution_df self models)))
    /\ NoDup (map snd (show_score_distribution self models))
    /\ Forall (fun graph =>
                 graph.1 <> []
                 /\ Forall (fun r => "Model name: " +:+ lp_modelName r = graph.2) graph.1)
              (show_score_distribution self models).
Proof.
  intros self models. unfold show_score_distribution.
  set (df := score_distribution_df self models).
  assert (forall k r, String.eqb (lp_modelName r) k = true <-> lp_modelName r = k) as Hsel.
  { intros k r. apply String.eqb_eq. }
  rewrite !map_map. simpl.
  split; [|split; [|split]].
  - apply (groups_perm lp_modelName (fun k r => String.eqb (lp_modelName r) k));
      [exact Hsel|apply NoDup_unique|].
    intros r Hr. apply elem_of_unique, list_elem_of_In, in_map, list_elem_of_In, Hr.
  - reflexivity.
  - apply (NoDup_fmap_2 (String.app "Model name: ")), NoDup_unique.
  - apply Forall_forall. intros graph Hg.
    apply list_elem_of_In, in_map_iff in Hg as (model & <- & Hmodel). simpl. split.
    + apply (group_nonempty lp_modelName (fun k r => String.eqb (lp_modelName r) k));
        [exact Hsel|by apply list_elem_of_In].
    + apply Forall_forall. intros r Hr.
      apply elem_of_filter_bool in Hr as [_ Hr]. apply String.eqb_eq in Hr. by rewrite Hr.
Qed.

Lemma result_mapM_map_Some {A B : Type} (f : A -> B) (e : exn) (names : list A) :
  result_mapM (fun x => match x with Some a => Ok (f a) | None => Raise e end)
              (map Some names)
  = Ok (map f names).
Proof. induction names as [|a names IH]; simpl; [reflexivity|]. by rewrite IH. Qed.

Lemma all_Some {A : Type} (l : list (option A)) :
  (forall x, x ∈ l -> x <> None) -> exists names, l = map Some names.
Proof.
  induction l as [|x l IH]; intros Hall; [by exists []|].
  destruct IH as (names & ->); [intros; apply Hall; by right|].
  destruct x as [a|]; [by exists (a :: names)|]. destruct (Hall None); [by left|done].
Qed.

Lemma show_predictor_report_raise (self : ADMReport) (model_name : string)
    (predictors : option (list string)) (r : LatestPredRow) :
  r ∈ predictor_report_df self model_name predictors ->
  lp_predName r = None ->
  show_predictor_report self model_name predictors
  = Raise (TypeError "can only concatenate str (not float) to str").
Proof.
  intros Hr Hnone. unfold show_predictor_report. apply result_mapM_None.
  apply elem_of_unique. rewrite <- Hnone. apply list_elem_of_In, in_map.
  by apply list_elem_of_In.
Qed.

(** The graphs of [show_predictor_report].  The call raises TypeError
    when a selected row has no predictor name (NaN), since the name
    cannot be appended to the title; a non-empty [predictors] list
    selects no such row.  When every selected row has a name, there is
    one graph per distinct predictor name, in order of first appearance:
    every selected row is in the frame of exactly one graph, no graph has
    an empty frame and no two graphs have the same title. *)
Theorem predictor_report_graphs :
  forall (self : ADMReport) (model_name : string) (predictors : option (list string)),
    ((exists r, r ∈ predictor_report_df self model_name predictors
                /\ lp_predName r = None) ->
     show_predictor_report self model_name predictors
     = Raise (TypeError "can only concatenate str (not float) to str"))
    /\ ((forall r, r ∈ predictor_report_df self model_name predictors ->
                   lp_predName r <> None) ->
        exists graphs,
          show_predictor_report self model_name predictors = Ok graphs
          /\ concat (map fst graphs) ≡ₚ predictor_report_df self model_name predictors
          /\ length graphs
             = length (unique (map lp_predName
                                   (predictor_report_df self model_name predictors)))
          /\ NoDup (map snd graphs)
          /\ Forall (fun graph =>
                       graph.1 <> []
                       /\ exists name,
                            graph.2 = "Model name: " +:+ model_name +:+ "
 Predictor name: " +:+ name
                            /\ Forall (fun r => lp_predName r = Some name) graph.1)
                    graphs)
    /\ (truthy predictors = true ->
        forall r, r ∈ predictor_report_df self model_name predictors ->
                  lp_predName r <> None).
Proof.
  intros self model_name predictors. split; [|split].
  - intros (r & Hr & Hnone). by apply (show_predictor_report_raise _ _ _ r).
  - intros Hall. unfold show_predictor_report.
    set (df := predictor_report_df self model_name predictors) in *.
    assert (forall (k : option string) r,
               bool_decide (lp_predName r = k) = true <-> lp_predName r = k) as Hsel.
    { intros k r. apply bool_decide_eq_true. }
    destruct (all_Some (unique (map lp_predName df))) as (names & Hnames).
    { intros x Hx. apply elem_of_unique, list_elem_of_In, in_map_iff in Hx as (r & <- & Hr).
      apply Hall. by apply list_elem_of_In. }
    rewrite Hnames, result_mapM_map_Some. eexists. split; [reflexivity|].
    assert (NoDup names) as Hnd.
    { apply (NoDup_fmap_1 Some). change (NoDup (map Some names)).
      rewrite <- Hnames. apply NoDup_unique. }
    split; [|split; [|split]].
    + rewrite map_map. simpl.
      pose proof (groups_perm lp_predName (fun k r => bool_decide (lp_predName r = k))
                    df (map Some names) Hsel) as Hperm.
      rewrite map_map in Hperm. apply Hperm.
      * rewrite <- Hnames. apply NoDup_unique.
      * intros r Hr. rewrite <- Hnames.
        apply elem_of_unique, list_elem_of_In, in_map. by apply list_elem_of_In.
    + by rewrite !length_map.
    + rewrite map_map. simpl. apply NoDup_fmap_2; [|exact Hnd].
      intros a b Heq. by repeat apply String.app_inj in Heq.
    + apply Forall_forall. intros graph Hg.
      apply list_elem_of_In, in_map_iff in Hg as (name & <- & Hname). simpl. split.
      * pose proof (group_nonempty lp_predName
                      (fun k r => bool_decide (lp_predName r = k)) df (Some name) Hsel)
          as Hne.
        apply Hne. rewrite Hnames. apply list_elem_of_In, in_map, Hname.
      * exists name. split; [reflexivity|]. apply Forall_forall. intros r Hr.
        apply elem_of_filter_bool in Hr as [_ Hr]. by apply bool_decide_eq_true in Hr.
  - intros Ht r Hr. unfold predictor_report_df in Hr. rewrite Ht in Hr.
    apply elem_of_filter_bool in Hr as [_ Hr]. by destruct (lp_predName r).
Qed.

Lemma predictor_frame_ids ids names perf symbol index entry type pos resp snap p :
  p ∈ predictor_frame ids names perf symbol index entry type pos resp snap ->
  predModelID p ∈ ids.
Proof.
  revert names perf symbol index entry type pos resp snap.
  induction ids as [|i ids IH];
    intros [|n names] [|pf perf] [|sy symbol] [|ix index] [|e entry] [|ty type]
           [|ps pos] [|rs resp] [|sn snap]; simpl;
    try (by intros ?%not_elem_of_nil).
  intros [->|Hin]%elem_of_cons; [by left|right]. by eapply IH.
Qed.

Lemma latest_predictors_ids (preds : PredictorArrays) (p : Rated PredictorBin) :
  p ∈ latest_predictors preds -> predModelID p.1 ∈ a_predModelID preds.
Proof.
  intros Hp. eapply predictor_frame_ids.
  assert (p.1 ∈ map fst (latest_predictors preds)) as Hin.
  { apply list_elem_of_In, in_map. by apply list_elem_of_In. }
  rewrite latest_predictors_rows in Hin. apply elem_of_filter_bool in Hin as [Hin _].
  exact Hin.
Qed.

(** A model that has no predictor rows cannot be reported on.  When a
    row of [dfModel] has a model ID that does not occur in the
    [predModelID] array, the left join leaves it one row with the
    predictor columns missing; [show_predictor_report] for its model
    name, without a [predictors] list (or with an empty one), selects
    that row and raises TypeError, whatever other rows the name has. *)
Theorem predictor_report_without_predictors_raises :
  forall sort_values (arrays : ModelArrays) (preds : PredictorArrays)
         (report : ADMReport) (m : Rated ModelSnapshot) (predictors : option (list string)),
    ADMReport_init sort_values arrays preds = Ok report ->
    m ∈ dfModel (adm_model report) ->
    modelID m.1 ∉ a_predModelID preds ->
    truthy predictors = false ->
    (exists r, r ∈ latestPredModel report
               /\ lp_modelName r = modelName m.1 /\ lp_predictor r = None)
    /\ show_predictor_report report (modelName m.1) predictors
       = Raise (TypeError "can only concatenate str (not float) to str").
Proof.
  intros sort_values arrays preds report m predictors Hinit Hm Hid Ht.
  unfold ADMReport_init in Hinit.
  apply bind_Ok in Hinit as (base & _ & Hinit).
  apply bind_Ok in Hinit as (? & _ & Hinit). inversion Hinit; subst report; clear Hinit.
  simpl in *.
  assert (drop_keys (m, None) ∈ _create_pred_model_df base preds) as Hrow.
  { unfold _create_pred_model_df. apply list_elem_of_In, in_map, list_elem_of_In.
    apply merge_left_unmatched. split; [exact Hm|].
    intros p Hp Heq. apply Hid. rewrite <- Heq. by apply latest_predictors_ids. }
  split; [exists (drop_keys (m, None)); by repeat split|].
  apply (show_predictor_report_raise _ _ _ (drop_keys (m, None))); [|reflexivity].
  unfold predictor_report_df. rewrite Ht. apply elem_of_filter_bool.
  split; [exact Hrow|]. simpl. by rewrite String.eqb_refl.
Qed.

Lemma predictor_report_without_predictors_raises_witness :
  exists report,
    ADMReport_init stable_sort docstring_arrays two_bin_arrays = Ok report
    /\ show_predictor_report report "model3" None
       = Raise (TypeError "can only concatenate str (not float) to str").
Proof.
  eexists. split; [vm_compute; reflexivity|].
  refine (proj2 (predictor_report_without_predictors_raises
                   stable_sort docstring_arrays two_bin_arrays _
                   ({| modelID := "i3"; modelName := "model3"; positives := 7;
                       responses := 200; performance := 0.73%Q;
                       snapshot := 1551398400 |}, Fin (7 * 100 # 200)) None
                   eq_refl _ _ eq_refl)).
  - vm_compute. do 2 right. left.
  - vm_compute. intros Hin. repeat (apply elem_of_cons in Hin as [Hin|Hin]; [discriminate|]).
    by apply not_elem_of_nil in Hin.
Defined.

(** ** Tick labels and legend entries *)

Lemma length_string_app (s1 s2 : string) :
  String.length (s1 +:+ s2) = (String.length s1 + String.length s2)%nat.
Proof. induction s1 as [|c s1 IH]; simpl; [reflexivity|]. by rewrite IH. Qed.

Lemma substring_prefix (m : nat) (s : string) :
  (m <= String.length s)%nat ->
  String.length (String.substring 0 m s) = m
  /\ exists rest, s = String.substring 0 m s +:+ rest.
Proof.
  revert s. induction m as [|m IH]; intros s Hle.
  - destruct s; simpl; (split; [reflexivity|by eexists]).
  - destruct s as [|c s]; simpl in *; [lia|].
    destruct (IH s) as (Hlen & rest & Hrest); [lia|].
    split; [by rewrite Hlen|]. exists rest.
    change (String c s = String c (String.substring 0 m s +:+ rest)). congruence.
Qed.

(** The tick labels of [distribution_graph]: a bin symbol of at most 25
    characters is shown as it is; a longer one is shown as its first 24
    characters followed by three dots, which is 27 characters, so that a
    symbol of 26 characters is shown one character longer than it is.
    No label is longer than 27 characters. *)
Theorem tick_label_at_most_27 :
  forall text : string,
    ((String.length text <= 25)%nat /\ tick_label text = text
     \/ (25 < String.length text)%nat
        /\ String.length (tick_label text) = 27%nat
        /\ exists head rest,
             text = head +:+ rest /\ String.length head = 24%nat
             /\ tick_label text = head +:+ "...")
    /\ (String.length (tick_label text) <= 27)%nat.
Proof.
  intros text. unfold tick_label.
  destruct (25 <? String.length text)%nat eqn:Hlen.
  - apply Nat.ltb_lt in Hlen.
    destruct (substring_prefix 24 text) as (Hhead & rest & Hrest); [lia|].
    rewrite length_string_app, Hhead. simpl. split; [|lia].
    right. split; [lia|]. split; [reflexivity|].
    exists (String.substring 0 24 text), rest. done.
  - apply Nat.ltb_ge in Hlen. split; [|lia]. left. done.
Qed.

Lemma split_no_sep (sep : Ascii.ascii) (s : string) :
  occurs sep s = false -> split sep s = [s].
Proof.
  induction s as [|c s IH]; simpl; [reflexivity|].
  intros [Hc Hs]%orb_false_iff. rewrite Hc. by rewrite (IH Hs).
Qed.

Lemma split_nonempty (sep : Ascii.ascii) (s : string) : split sep s <> [].
Proof.
  destruct s as [|c s]; simpl; [done|].
  destruct (Ascii.eqb c sep); [done|]. by destruct (split sep s).
Qed.

Lemma split_first (sep : Ascii.ascii) (pre rest : string) :
  occurs sep pre = false ->
  split sep (pre +:+ String sep rest) = pre :: split sep rest.
Proof.
  induction pre as [|c pre IH]; simpl.
  - intros _. by rewrite Ascii.eqb_refl.
  - intros [Hc Hpre]%orb_false_iff. rewrite Hc. by rewrite (IH Hpre).
Qed.

Lemma first_occurrence (sep : Ascii.ascii) (s : string) :
  occurs sep s = true ->
  exists pre rest, s = pre +:+ String sep rest /\ occurs sep pre = false.
Proof.
  induction s as [|c s IH]; simpl; [discriminate|].
  destruct (Ascii.eqb c sep) eqn:Hc; simpl.
  - intros _. apply Ascii.eqb_eq in Hc as ->. by exists EmptyString, s.
  - intros Hs. destruct (IH Hs) as (pre & rest & -> & Hpre).
    exists (String c pre), rest. simpl. by rewrite Hc, Hpre.
Qed.

(** The legend entry that [show_predictor_performance_boxplot] gives a
    predictor name: Primary when the name has no dot, otherwise the part
    of the name before its first dot (which is empty when the name
    starts with a dot). *)
Theorem legend_is_prefix_before_first_dot :
  forall i : string,
    occurs "." i = false /\ legend i = "Primary"
    \/ exists pre rest,
         i = pre +:+ "." +:+ rest /\ occurs "." pre = false /\ legend i = pre.
Proof.
  intros i. unfold legend. destruct (occurs "." i) eqn:Hdot.
  - right. destruct (first_occurrence _ _ Hdot) as (pre & rest & -> & Hpre).
    exists pre, rest. split; [reflexivity|]. split; [exact Hpre|].
    rewrite (split_first _ _ _ Hpre). simpl.
    pose proof (split_nonempty "." rest). by destruct (split "." rest).
  - left. split; [reflexivity|]. by rewrite (split_no_sep _ _ Hdot).
Qed.

(** ** Sorted distinct values *)

Section Sort_unique.

Context {A : Type} `{EqDecision A} (le : A -> A -> bool) (R : relation A).
Context `{!PartialOrder R, !Total R}.
Hypothesis le_spec : forall x y, le x y = true <-> R x y.





End Sort_unique.









(** ** The records that reach the annotation table *)




Lemma filter_key_none {A K : Type} `{EqDecision K} (key : A -> K) (l : list A) (k : K) :
  k ∉ map key l -> List.filter (fun c => bool_decide (key c = k)) l = [].
Proof.
  intros Hk. apply filter_none. intros c Hc. apply bool_decide_eq_false.
  intros <-. apply Hk. apply list_elem_of_In, in_map, Hc.
Qed.















(** ** Records with the same name and snapshot time *)







(** ** The time series graphs *)

(** The rows a query leaves of [dfModel], typed. *)
Lemma queried_rows_of_frame (f : DataFrame) (l : list (Rated ModelSnapshot)) :
  df_rows f = map (fun r => drop 1 (model_cells r)) l ->
  result_mapM queried_row (df_rows f) = Ok (map to_queried l).
Proof.
  intros ->. induction l as [|r l IH]; simpl; [reflexivity|].
  simpl in IH. rewrite IH. reflexivity.
Qed.

Lemma unique_length_lt_2 {A : Type} `{EqDecision A} (l : list A) :
  (length (unique l) <? 2)%nat = true <-> forall x y, x ∈ l -> y ∈ l -> x = y.
Proof.
  pose proof (NoDup_unique l) as Hnd.
  pose proof (elem_of_unique l) as Helem.
  destruct (unique l) as [|a [|b u]]; simpl.
  - split; [|done]. intros _ x y Hx%Helem. by apply elem_of_nil in Hx.
  - split; [|done]. intros _ x y Hx%Helem Hy%Helem.
    apply list_elem_of_singleton in Hx, Hy. congruence.
  - split; [done|]. intros Hall. exfalso.
    apply NoDup_cons in Hnd as [Hnot _]. apply Hnot.
    rewrite (Hall a b); [by left|apply Helem; by left|apply Helem; right; by left].
Qed.

Lemma unique_length_ge_2 {A : Type} `{EqDecision A} (l : list A) :
  (length (unique l) <? 2)%nat = false -> exists x y, x ∈ l /\ y ∈ l /\ x <> y.
Proof.
  pose proof (NoDup_unique l) as Hnd.
  pose proof (elem_of_unique l) as Helem.
  destruct (unique l) as [|a [|b u]]; simpl; [done..|]. intros _.
  exists a, b. split; [apply Helem; by left|]. split; [apply Helem; right; by left|].
  apply NoDup_cons in Hnd as [Hnot _]. intros ->. apply Hnot. by left.
Qed.

(** The lines of [show_response_auc_time].  When the records left by
    the query all have one snapshot time (or none is left) nothing is
    drawn and the call returns normally.  Otherwise there is one line per
    distinct model name, in order of first appearance; the points of a
    line are the records of its model, in ascending order of snapshot
    time; every record left by the query is a point of exactly one line;
    and the name is written at the end of the line exactly when one of
    its points has more than one response. *)
Theorem response_auc_time_lines :
  forall sort_values, sorts sort_values ->
    forall (self : ModelReport) (query : PyQuery) (f : DataFrame),
      _apply_query query (to_frame (dfModel self)) = Ok f ->
      exists selected,
        selected `sublist_of` dfModel self
        /\ df_rows f = map (fun r => drop 1 (model_cells r)) selected
        /\ ((forall r r', r ∈ selected -> r' ∈ selected -> snapshot r.1 = snapshot r'.1)
            /\ show_response_auc_time sort_values self query = Ok None
            \/ (exists r r', r ∈ selected /\ r' ∈ selected /\ snapshot r.1 <> snapshot r'.1)
               /\ exists lines,
                   show_response_auc_time sort_values self query = Ok (Some lines)
                   /\ map line_name lines
                      = unique (map (fun r => modelName r.1) selected)
                   /\ concat (map line_points lines) ≡ₚ map to_queried selected
                   /\ Forall
                        (fun line =>
                           line_points line
                             ≡ₚ List.filter (fun r => String.eqb (q_name r) (line_name line))
                                            (map to_queried selected)
                           /\ line_points line <> []
                           /\ Sorted (fun a b => q_snapshot a <= q_snapshot b)
                                     (line_points line)
                           /\ (line_labelled line = true
                               <-> exists p, p ∈ line_points line /\ 1 < q_responses p))
                        lines).
Proof.
  intros sort_values Hsorts self query f Hquery.
  destruct (apply_query_rows _ _ _ Hquery) as (selected & Hsub & _ & Hf).
  exists selected. split; [exact Hsub|]. split; [exact Hf|].
  unfold show_response_auc_time. rewrite Hquery. cbn [mbind result_bind].
  rewrite (queried_rows_of_frame f selected Hf). cbn [mbind result_bind].
  set (rows := map to_queried selected).
  assert (map q_snapshot rows = map (fun r => snapshot r.1) selected) as Hsnap
    by (unfold rows; by rewrite map_map).
  assert (map q_name rows = map (fun r => modelName r.1) selected) as Hnames
    by (unfold rows; by rewrite map_map).
  destruct (length (unique (map q_snapshot rows)) <? 2)%nat eqn:Hfew.
  - left. split; [|reflexivity].
    pose proof (proj1 (unique_length_lt_2 (map q_snapshot rows)) Hfew) as Hall. clear Hfew.
    rename Hall into Hfew.
    intros r r' Hr Hr'. rewrite Hsnap in Hfew.
    apply Hfew; apply list_elem_of_In, (in_map (fun r => snapshot r.1)); by apply list_elem_of_In.
  - right. split.
    + destruct (unique_length_ge_2 _ Hfew) as (x & y & Hx & Hy & Hne).
      rewrite Hsnap in Hx, Hy.
      apply list_elem_of_In, in_map_iff in Hx as (r & <- & Hr).
      apply list_elem_of_In, in_map_iff in Hy as (r' & <- & Hr').
      exists r, r'. by rewrite !list_elem_of_In.
    + eexists. split; [reflexivity|]. rewrite !map_map. simpl.
      assert (forall name, sort_values QueriedRow q_snapshot
                             (List.filter (fun r => String.eqb (q_name r) name) rows)
                           ≡ₚ List.filter (fun r => String.eqb (q_name r) name) rows) as Hperm.
      { intros name. apply Hsorts. }
      split; [by rewrite map_id, Hnames|]. split.
      * etransitivity; [|apply (groups_perm q_name (fun k r => String.eqb (q_name r) k) rows
                                  (unique (map q_name rows)))].
        -- clear -Hperm. induction (unique (map q_name rows)) as [|n ns IH]; simpl;
             [reflexivity|]. by rewrite Hperm, IH.
        -- intros k r. apply String.eqb_eq.
        -- apply NoDup_unique.
        -- intros r Hr. apply elem_of_unique, list_elem_of_In, in_map. by apply list_elem_of_In.
      * rewrite List.Forall_map. apply Forall_forall. intros name Hname. simpl.
        split; [apply Hperm|]. split; [|split; [apply Hsorts|]].
        -- intros Hnil. pose proof (Hperm name) as Hp. rewrite Hnil in Hp.
           apply Permutation_nil_l in Hp.
           by apply (group_nonempty q_name (fun k r => String.eqb (q_name r) k) rows name
                       ltac:(intros; apply String.eqb_eq)).
        -- set (points := sort_values QueriedRow q_snapshot _).
           destruct (map q_responses points) as [|x xs] eqn:Hresp.
           { destruct points; [|discriminate]. simpl. split; [done|].
             intros (p & Hp & _). by apply elem_of_nil in Hp. }
           destruct (series_max_spec (x :: xs)) as (m & Hm & Hin & Hall); [done|].
           rewrite Hm. rewrite Z.ltb_lt. rewrite <- Hresp in Hin, Hall. split.
           ++ intros Hlt. apply list_elem_of_In, in_map_iff in Hin as (p & <- & Hp).
              exists p. split; [by apply list_elem_of_In|done].
           ++ intros (p & Hp & Hlt). rewrite List.Forall_map, Forall_forall in Hall.
              specialize (Hall p Hp). simpl in Hall. lia.
Qed.

Lemma response_auc_time_lines_witness :
  exists lines,
    show_response_auc_time stable_sort (report_of stable_sort docstring_arrays) (PyDict ∅)
    = Ok (Some lines)
    /\ Forall (fun line =>
                 line_points line <> []
                 /\ Sorted (fun a b => q_snapshot a <= q_snapshot b) (line_points line))
              lines.
Proof.
  assert (exists f, _apply_query (PyDict ∅)
                      (to_frame (dfModel (report_of stable_sort docstring_arrays))) = Ok f)
    as (f & Hquery).
  { eexists. vm_compute. reflexivity. }
  destruct (response_auc_time_lines stable_sort stable_sort_sorts _ (PyDict ∅) f Hquery)
    as (selected & _ & _ & [[_ Hnone] | [_ (lines & Hrun & _ & _ & Hlines)]]).
  - exfalso. vm_compute in Hnone. discriminate.
  - exists lines. split; [exact Hrun|].
    eapply Forall_impl; [exact Hlines|]. simpl. tauto.
Defined.

(** [show_success_rate_time] uses the query only to decide whether to
    draw.  When the records left by the query all have one snapshot time
    nothing is drawn; otherwise the frame handed to the line plot is the
    whole of [dfModel], the records the query excluded included. *)
Theorem success_rate_time_ignores_the_query :
  forall (self : ModelReport) (query : PyQuery) (f : DataFrame),
    _apply_query query (to_frame (dfModel self)) = Ok f ->
    exists selected,
      selected `sublist_of` dfModel self
      /\ df_rows f = map (fun r => drop 1 (model_cells r)) selected
      /\ ((forall r r', r ∈ selected -> r' ∈ selected -> snapshot r.1 = snapshot r'.1)
          /\ show_success_rate_time self query = Ok None
          \/ (exists r r', r ∈ selected /\ r' ∈ selected /\ snapshot r.1 <> snapshot r'.1)
             /\ show_success_rate_time self query = Ok (Some (dfModel self))).
Proof.
  intros self query f Hquery.
  destruct (apply_query_rows _ _ _ Hquery) as (selected & Hsub & _ & Hf).
  exists selected. split; [exact Hsub|]. split; [exact Hf|].
  unfold show_success_rate_time. rewrite Hquery. cbn [mbind result_bind].
  rewrite (queried_rows_of_frame f selected Hf). cbn [mbind result_bind].
  assert (map q_snapshot (map to_queried selected) = map (fun r => snapshot r.1) selected)
    as Hsnap by (by rewrite map_map).
  destruct (length (unique (map q_snapshot (map to_queried selected))) <? 2)%nat eqn:Hfew.
  - left. split; [|reflexivity].
    pose proof (proj1 (unique_length_lt_2 _) Hfew) as Hall. rewrite Hsnap in Hall.
    intros r r' Hr Hr'.
    apply Hall; apply list_elem_of_In, (in_map (fun r => snapshot r.1)); by apply list_elem_of_In.
  - right. split; [|reflexivity].
    destruct (unique_length_ge_2 _ Hfew) as (x & y & Hx & Hy & Hne).
    rewrite Hsnap in Hx, Hy.
    apply list_elem_of_In, in_map_iff in Hx as (r & <- & Hr).
    apply list_elem_of_In, in_map_iff in Hy as (r' & <- & Hr').
    exists r, r'. by rewrite !list_elem_of_In.
Qed.

Lemma success_rate_time_ignores_the_query_witness :
  show_success_rate_time (report_of stable_sort heatmap_arrays)
                         (PyDict {["model name" := PyList [CStr "A"]]})
  = Ok (Some (dfModel (report_of stable_sort heatmap_arrays)))
  /\ map (fun r => modelName r.1) (dfModel (report_of stable_sort heatmap_arrays))
     = ["A"; "B"; "A"; "A"; "B"].
Proof.
  assert (exists f, _apply_query (PyDict {["model name" := PyList [CStr "A"]]})
                      (to_frame (dfModel (report_of stable_sort heatmap_arrays))) = Ok f)
    as (f & Hquery).
  { eexists. vm_compute. reflexivity. }
  destruct (success_rate_time_ignores_the_query _ _ f Hquery)
    as (selected & _ & _ & [[_ Hnone] | [_ Hrun]]).
  - exfalso. vm_compute in Hnone. discriminate.
  - split; [exact Hrun|reflexivity].
Defined.



(** ** The range of the success rate *)



